(** * Sentence embeddings of LLM-Kit's text2vec module

    A shallow embedding of [modules/model/Embedding/text2vec/model/base.py]:
    the pooling strategies of [BaseSentenceModel.get_sentence_embeddings],
    the batched [encode] pipeline with its length sort and order
    restoration, the constructor checks of [BaseModel.__init__] and the
    result report of [evaluate].

    Conventions.
    - Python exceptions are values of [exn]; a call that may raise returns
      [res A].
    - A torch tensor is a shape together with an indexing function.  Its
      elements are exact rationals extended with the IEEE special values
      (infinities and NaN); rounding and signed zeros are not modelled.
      [pool_in] gives the pooling branches over any arithmetic, float32
      with its rounding among them.
    - The transformer, the tokenizer, [np.argsort], [torch.cosine_similarity]
      and the correlation helpers are external to the file and enter as
      parameters. *)

From Stdlib Require Import QArith ZArith Lia.
From Stdlib Require SpecFloat.
From stdpp Require Import base decidable option list sorting strings gmap.

Local Open Scope Z_scope.
Local Open Scope nat_scope.

(** ** Python values and exceptions *)

Inductive exn : Type :=
  | IndexError
  | ValueError
  | RuntimeError
  | AttributeError
  | TypeError.

Inductive res (A : Type) : Type :=
  | Ok (a : A)
  | Raise (e : exn).
Arguments Ok {A} a.
Arguments Raise {A} e.

Definition bind {A B : Type} (m : res A) (k : A -> res B) : res B :=
  match m with
  | Ok a => k a
  | Raise e => Raise e
  end.

Notation "'try!' x ':=' m 'in' k" := (bind m (fun x => k))
  (at level 10, x name, m at level 100, k at level 200).

(** [for x in xs: body], where the body may raise and threads a state. *)
Fixpoint for_each {A S : Type} (xs : list A) (body : S -> A -> res S) (s : S)
  : res S :=
  match xs with
  | [] => Ok s
  | x :: xs' => try! s' := body s x in for_each xs' body s'
  end.

Module Py.

(** [l[i]] for a Python list and a (possibly negative) integer. *)
Definition index {A : Type} (l : list A) (i : Z) : res A :=
  let n := Z.of_nat (length l) in
  let j := if (i <? 0)%Z then (i + n)%Z else i in
  if ((0 <=? j)%Z && (j <? n)%Z)%bool
  then match l !! Z.to_nat j with
       | Some x => Ok x
       | None => Raise IndexError
       end
  else Raise IndexError.

(** [l[a:b]] for [0 <= a <= b]. *)
Definition slice {A : Type} (l : list A) (a b : nat) : list A :=
  take (b - a) (drop a l).

(** The values of [range(0, stop, step)] for a positive step. *)
Fixpoint range_from (fuel : nat) (start stop step : nat) : list nat :=
  match fuel with
  | O => []
  | S fuel' =>
      if start <? stop
      then start :: range_from fuel' (start + step) stop step
      else []
  end.

(** [range(0, stop, step)]: a zero step is a [ValueError], a negative one
    gives the empty range. *)
Definition range (stop : nat) (step : Z) : res (list nat) :=
  if (step =? 0)%Z then Raise ValueError
  else if (step <? 0)%Z then Ok []
  else Ok (range_from stop 0 stop (Z.to_nat step)).

(** Truth value of an optional string ([None] and the empty string are false). *)
Definition truthy (s : option string) : bool :=
  match s with
  | Some (String _ _) => true
  | _ => false
  end.

(** [os.path.join(dir, name)] for a relative [name]. *)
Definition path_join (dir name : string) : string :=
  match dir with
  | EmptyString => name
  | _ => if String.eqb (String.substring (String.length dir - 1) 1 dir) "/"
         then dir +:+ name
         else dir +:+ "/" +:+ name
  end.

End Py.

(** ** Tensor elements *)

Inductive float : Type :=
  | Finite (q : Q)
  | PInf
  | NInf
  | NaN.

Module Float.

Definition of_Z (z : Z) : float := Finite (inject_Z z).
Definition of_nat (n : nat) : float := of_Z (Z.of_nat n).

Definition zero : float := Finite 0.

(** Sign of an element: [Some Gt] positive, [Some Lt] negative,
    [Some Eq] zero, [None] for NaN. *)
Definition sign (x : float) : option comparison :=
  match x with
  | Finite q => Some (Qcompare q 0)
  | PInf => Some Gt
  | NInf => Some Lt
  | NaN => None
  end.

Definition inf_of (c : comparison) : float :=
  match c with Gt => PInf | Lt => NInf | Eq => NaN end.

Definition sign_mul (a b : comparison) : comparison :=
  match a, b with
  | Eq, _ | _, Eq => Eq
  | Gt, Gt | Lt, Lt => Gt
  | _, _ => Lt
  end.

Definition add (x y : float) : float :=
  match x, y with
  | NaN, _ | _, NaN => NaN
  | Finite a, Finite b => Finite (a + b)
  | PInf, NInf | NInf, PInf => NaN
  | PInf, _ | _, PInf => PInf
  | NInf, _ | _, NInf => NInf
  end.

Definition mul (x y : float) : float :=
  match x, y with
  | Finite a, Finite b => Finite (a * b)
  | _, _ =>
      match sign x, sign y with
      | Some a, Some b => inf_of (sign_mul a b)
      | _, _ => NaN
      end
  end.

Definition div (x y : float) : float :=
  match x, y with
  | NaN, _ | _, NaN => NaN
  | Finite a, Finite b =>
      if Qeq_bool b 0 then inf_of (Qcompare a 0) else Finite (a / b)
  | Finite _, _ => Finite 0
  | _, Finite b =>
      match sign x with
      | Some s => inf_of (sign_mul s (if Qeq_bool b 0 then Gt else Qcompare b 0))
      | None => NaN
      end
  | _, _ => NaN
  end.

Definition leb (x y : float) : bool :=
  match x, y with
  | NaN, _ | _, NaN => false
  | NInf, _ | _, PInf => true
  | Finite a, Finite b => Qle_bool a b
  | _, _ => false
  end.

(** [max(x, m)] as [torch.clamp(min=m)] computes it: NaN stays NaN. *)
Definition clamp_min (m x : float) : float :=
  match x with
  | NaN => NaN
  | _ => if leb m x then x else m
  end.

Definition is_finite (x : float) : bool :=
  match x with Finite _ => true | _ => false end.

(** Same value: rationals up to [Qeq], each special value only itself. *)
Definition eqv (x y : float) : Prop :=
  match x, y with
  | Finite a, Finite b => a == b
  | PInf, PInf | NInf, NInf | NaN, NaN => True
  | _, _ => False
  end.

(** [f 0 + f 1 + ... + f (n-1)], accumulated from the left. *)
Fixpoint sum (n : nat) (f : nat -> float) : float :=
  match n with
  | O => zero
  | S n' => add (sum n' f) (f n')
  end.

End Float.

Infix "≈" := Float.eqv (at level 70, no associativity).

(** ** Tensors *)

Record tensor (A : Type) : Type := Tensor {
  shape : list nat;
  data : list nat -> A
}.
Arguments Tensor {A} shape data.
Arguments shape {A} t.
Arguments data {A} t ix.

Module Torch.

Definition rank {A : Type} (t : tensor A) : nat := length (shape t).

(** A dimension argument, negative ones counting from the end; [n] is the
    number of admissible positions. *)
Definition wrap_dim (n : nat) (d : Z) : res nat :=
  let m := Z.of_nat n in
  if ((0 <=? d)%Z && (d <? m)%Z)%bool then Ok (Z.to_nat d)
  else if ((- m <=? d)%Z && (d <? 0)%Z)%bool then Ok (Z.to_nat (d + m))
  else Raise IndexError.

Definition insert_at {A : Type} (i : nat) (x : A) (l : list A) : list A :=
  take i l ++ x :: drop i l.

Definition swap (i j : nat) (l : list nat) : list nat :=
  <[i := nth j l 0]> (<[j := nth i l 0]> l).

(** [t.size(d)] *)
Definition size {A : Type} (t : tensor A) (d : Z) : res nat :=
  try! i := wrap_dim (rank t) d in
  Ok (nth i (shape t) 0).

(** [t.transpose(d0, d1)] *)
Definition transpose {A : Type} (t : tensor A) (d0 d1 : Z) : res (tensor A) :=
  try! i := wrap_dim (rank t) d0 in
  try! j := wrap_dim (rank t) d1 in
  Ok (Tensor (swap i j (shape t)) (fun ix => data t (swap i j ix))).

(** [t.squeeze(d)]: drops dimension [d] when its size is one. *)
Definition squeeze {A : Type} (t : tensor A) (d : Z) : res (tensor A) :=
  try! i := wrap_dim (rank t) d in
  if nth i (shape t) 0 =? 1
  then Ok (Tensor (delete i (shape t)) (fun ix => data t (insert_at i 0 ix)))
  else Ok t.

(** [t.unsqueeze(d)]: a new dimension of size one at position [d]. *)
Definition unsqueeze {A : Type} (t : tensor A) (d : Z) : res (tensor A) :=
  try! i := wrap_dim (S (rank t)) d in
  Ok (Tensor (insert_at i 1 (shape t)) (fun ix => data t (delete i ix))).

(** [t.expand(sh)]: dimensions of size one are repeated; when [sh] is
    longer than the shape of [t], the shapes are aligned at the end. *)
Definition expandable (src tgt : list nat) : bool :=
  (length src <=? length tgt) &&
  forallb (fun p => (fst p =? snd p) || (fst p =? 1))
          (zip src (drop (length tgt - length src) tgt)).

Definition expand {A : Type} (t : tensor A) (sh : list nat) : res (tensor A) :=
  if expandable (shape t) sh
  then Ok (Tensor sh (fun ix =>
         data t (zip_with (fun s i => if s =? 1 then 0 else i) (shape t)
                          (drop (length sh - rank t) ix))))
  else Raise RuntimeError.

(** [t.float()] on an integer tensor. *)
Definition float_ (t : tensor Z) : tensor float :=
  Tensor (shape t) (fun ix => Float.of_Z (data t ix)).

(** Element-wise binary operation.  Every call site below passes two
    tensors of one shape; torch would broadcast shapes that differ, which
    is not modelled: they are rejected. *)
Definition pointwise (f : float -> float -> float) (a b : tensor float)
  : res (tensor float) :=
  if bool_decide (shape a = shape b)
  then Ok (Tensor (shape a) (fun ix => f (data a ix) (data b ix)))
  else Raise RuntimeError.

Definition mul := pointwise Float.mul.
Definition div := pointwise Float.div.

(** [torch.sum(t, d)] *)
Definition sum (t : tensor float) (d : Z) : res (tensor float) :=
  try! i := wrap_dim (rank t) d in
  Ok (Tensor (delete i (shape t))
        (fun ix => Float.sum (nth i (shape t) 0)
                     (fun j => data t (insert_at i j ix)))).

(** [torch.clamp(t, min=m)] *)
Definition clamp (t : tensor float) (m : float) : tensor float :=
  Tensor (shape t) (fun ix => Float.clamp_min m (data t ix)).

(** [torch.avg_pool1d(t, kernel_size=k)] with the default stride (the
    kernel size), no padding, on a [(N, C, L)] or [(C, L)] input.  Empty
    channel or length dimensions, an empty kernel and a kernel longer
    than the input are runtime errors. *)
Definition avg_pool1d (t : tensor float) (k : nat) : res (tensor float) :=
  match reverse (shape t) with
  | l :: c :: pre =>
      if (length pre <=? 1) && (0 <? k) && (0 <? c) && (k <=? l)
      then
        let p := length pre + 1 in
        Ok (Tensor (reverse ((l - k) / k + 1 :: c :: pre))
              (fun ix =>
                 let o := nth p ix 0 in
                 Float.div
                   (Float.sum k (fun j => data t (<[p := o * k + j]> ix)))
                   (Float.of_nat k)))
      else Raise RuntimeError
  | _ => Raise RuntimeError
  end.

(** The data of [torch.cat(t :: ts, d)] at [ix], [i] being the wrapped
    dimension. *)
Fixpoint cat_data {A : Type} (t : tensor A) (ts : list (tensor A)) (i : nat)
    (ix : list nat) : A :=
  match ts with
  | [] => data t ix
  | t' :: ts' =>
      let n := nth i (shape t) 0 in
      let k := nth i ix 0 in
      if k <? n then data t ix else cat_data t' ts' i (<[i := k - n]> ix)
  end.

(** [torch.cat(ts, dim=d)]: the tensors agree on every other dimension. *)
Definition cat {A : Type} (ts : list (tensor A)) (d : Z) : res (tensor A) :=
  match ts with
  | [] => Raise RuntimeError
  | t :: ts' =>
      try! i := wrap_dim (rank t) d in
      if forallb (fun t' => bool_decide (rank t' = rank t) &&
                            bool_decide (delete i (shape t') = delete i (shape t)))
                 ts'
      then Ok (Tensor
                 (<[i := sum_list (map (fun t' => nth i (shape t') 0) ts)]> (shape t))
                 (cat_data t ts' i))
      else Raise RuntimeError
  end.

(** [t[:, k]] *)
Definition select_col {A : Type} (t : tensor A) (k : nat) : res (tensor A) :=
  match shape t with
  | _ :: n :: _ =>
      if k <? n
      then Ok (Tensor (delete 1 (shape t)) (fun ix => data t (insert_at 1 k ix)))
      else Raise IndexError
  | _ => Raise IndexError
  end.

(** The tensors that iterating over [t] yields: [t[0]], [t[1]], ... *)
Definition row {A : Type} (t : tensor A) (i : nat) : tensor A :=
  Tensor (tail (shape t)) (fun ix => data t (i :: ix)).

Definition rows {A : Type} (t : tensor A) : res (list (tensor A)) :=
  match shape t with
  | [] => Raise TypeError
  | n :: _ => Ok (map (row t) (seq 0 n))
  end.

End Torch.

(** ** The encoder and its configuration *)

(** Modelled from the spec: the enumeration [EncoderType] of
    [text2vec/utils/base.py], which is imported by the source file but is
    not part of it; the spec names its five members. *)
Inductive EncoderType : Type :=
  | FIRST_LAST_AVG
  | LAST_AVG
  | CLS
  | POOLER
  | MEAN.

Global Instance EncoderType_eq_dec : EqDecision EncoderType.
Proof. solve_decision. Defined.

(** What the transformer returns when called with
    [output_hidden_states=True]. [pooler_output] is [None] for a model
    without pooling head. *)
Record model_output : Type := ModelOutput {
  hidden_states : list (tensor float);
  last_hidden_state : tensor float;
  pooler_output : option (tensor float)
}.

(** What the tokenizer returns for a batch, with [return_tensors='pt']. *)
Record encoding : Type := Encoding {
  input_ids : tensor Z;
  attention_mask : tensor Z;
  token_type_ids : tensor Z
}.

(** [self.model(input_ids, attention_mask, token_type_ids, ...)] *)
Definition transformer : Type :=
  tensor Z -> tensor Z -> tensor Z -> res model_output.

(** [self.tokenizer(batch, max_length=..., padding=True, truncation=True)] *)
Definition tokenizer_fn : Type := list string -> Z -> res encoding.

(** A constructor argument of type [Union[str, E]] with default [None]. *)
Inductive arg (E : Type) : Type :=
  | ArgNone
  | ArgStr (s : string)
  | ArgEnum (e : E).
Arguments ArgNone {E}.
Arguments ArgStr {E} s.
Arguments ArgEnum {E} e.

(** The [sentences] argument of [encode]: one string or a list of them. *)
Inductive sentences_arg : Type :=
  | Single (s : string)
  | Many (l : list string).

(** The container [encode] returns its embeddings in. *)
Inductive container : Type :=
  | PyList
  | NdArray
  | TorchTensor.

Inductive encoded : Type :=
  | Embeddings (c : container) (l : list (tensor float))
  | Embedding (t : tensor float).

(** One batch of the evaluation data loader. *)
Record eval_batch : Type := EvalBatch {
  source : encoding;
  target : encoding;
  labels : list float
}.

(** A file opened with mode ["w"] and the text written to it. *)
Record file_write : Type := FileWrite {
  path : string;
  content : string
}.

Definition newline : string := String (Ascii.ascii_of_nat 10) EmptyString.

(** [1e-9] *)
Definition floor_1e9 : float := Finite (1 # 1000000000).

Section Model.

(** The enumeration [ModelArch] and the two [from_string] class methods
    live in [text2vec/utils/base.py]. *)
Context {ModelArch : Type}.
Variable ModelArch_from_string : string -> res ModelArch.
Variable EncoderType_from_string : string -> res EncoderType.

(** [torch.cuda] / [torch.backends.mps] pick the device when none is
    given. *)
Variable default_device : string.

(** [np.argsort]: indices that sort the keys. *)
Variable argsort : list Z -> list nat.

(** [torch.cosine_similarity] on two batches of embeddings, and the
    correlation helpers of [text2vec/utils/base.py]. *)
Variable cosine_similarity : tensor float -> tensor float -> res (list float).
Variable compute_spearmanr : list float -> list float -> res float.
Variable compute_pearsonr : list float -> list float -> res float.

(** [str] of a number. *)
Variable str : float -> string.

Record BaseModel : Type := {
  model_arch : ModelArch;
  encoder_type : option EncoderType;
  device : string;
  model_name_or_path : option string;
  num_classes : Z;
  max_seq_length : Z;
  model : transformer;
  tokenizer : tokenizer_fn;
  results : gmap string float
}.

(** [X.from_string(a) if isinstance(a, str) else a] *)
Definition resolve {E : Type} (from_string : string -> res E) (a : arg E)
  : res (option E) :=
  match a with
  | ArgNone => Ok None
  | ArgStr s => try! e := from_string s in Ok (Some e)
  | ArgEnum e => Ok (Some e)
  end.

(** [BaseModel.__init__] *)
Definition BaseModel_init (model_arch : arg ModelArch)
    (model_name_or_path : option string) (num_classes max_seq_length : Z)
    (encoder_type : arg EncoderType) (device : option string)
    (model : transformer) (tokenizer : tokenizer_fn) : res BaseModel :=
  try! model_arch := resolve ModelArch_from_string model_arch in
  match model_arch with
  | None => Raise ValueError
  | Some model_arch =>
      try! encoder_type := resolve EncoderType_from_string encoder_type in
      (* every member is in [list(EncoderType)], and [None] is let through *)
      let device := match device with
                    | None => default_device
                    | Some d => d
                    end in
      Ok {| model_arch := model_arch;
            encoder_type := encoder_type;
            device := device;
            model_name_or_path := model_name_or_path;
            num_classes := num_classes;
            max_seq_length := max_seq_length;
            model := model;
            tokenizer := tokenizer;
            results := ∅ |}
  end.

(** The branches of [get_sentence_embeddings] on the model output.  The
    result is [None] when no branch is taken. *)
Definition pool (encoder_type : option EncoderType) (out : model_output)
    (attention_mask : tensor Z) : res (option (tensor float)) :=
  match encoder_type with
  | Some FIRST_LAST_AVG =>
      try! first := Py.index (hidden_states out) 1 in
      try! last := Py.index (hidden_states out) (-1) in
      try! seq_length := Torch.size first 1 in
      try! first_t := Torch.transpose first 1 2 in
      try! first_p := Torch.avg_pool1d first_t seq_length in
      try! first_avg := Torch.squeeze first_p (-1) in
      try! last_t := Torch.transpose last 1 2 in
      try! last_p := Torch.avg_pool1d last_t seq_length in
      try! last_avg := Torch.squeeze last_p (-1) in
      try! first_u := Torch.unsqueeze first_avg 1 in
      try! last_u := Torch.unsqueeze last_avg 1 in
      try! both := Torch.cat [first_u; last_u] 1 in
      try! both_t := Torch.transpose both 1 2 in
      try! both_p := Torch.avg_pool1d both_t 2 in
      try! final_encoding := Torch.squeeze both_p (-1) in
      Ok (Some final_encoding)
  | Some LAST_AVG =>
      let sequence_output := last_hidden_state out in
      try! seq_length := Torch.size sequence_output 1 in
      try! seq_t := Torch.transpose sequence_output 1 2 in
      try! seq_p := Torch.avg_pool1d seq_t seq_length in
      try! final_encoding := Torch.squeeze seq_p (-1) in
      Ok (Some final_encoding)
  | Some CLS =>
      let sequence_output := last_hidden_state out in
      try! first_token := Torch.select_col sequence_output 0 in
      Ok (Some first_token)
  | Some POOLER =>
      Ok (pooler_output out)
  | Some MEAN =>
      let token_embeddings := last_hidden_state out in
      try! mask_u := Torch.unsqueeze attention_mask (-1) in
      try! mask_e := Torch.expand mask_u (shape token_embeddings) in
      let input_mask_expanded := Torch.float_ mask_e in
      try! weighted := Torch.mul token_embeddings input_mask_expanded in
      try! total := Torch.sum weighted 1 in
      try! count := Torch.sum input_mask_expanded 1 in
      try! final_encoding := Torch.div total (Torch.clamp count floor_1e9) in
      Ok (Some final_encoding)
  | None => Ok None
  end.

(** [BaseSentenceModel.get_sentence_embeddings] *)
Definition get_sentence_embeddings (self : BaseModel)
    (input_ids attention_mask token_type_ids : tensor Z)
  : res (option (tensor float)) :=
  try! model_output := model self input_ids attention_mask token_type_ids in
  pool (encoder_type self) model_output attention_mask.

(** [[xs[idx] for idx in idxs]] *)
Fixpoint gather {A : Type} (xs : list A) (idxs : list nat) : res (list A) :=
  match idxs with
  | [] => Ok []
  | idx :: idxs' =>
      match xs !! idx with
      | Some x => try! rest := gather xs idxs' in Ok (x :: rest)
      | None => Raise IndexError
      end
  end.

(** One turn of the batch loop of [encode]: tokenize the batch, embed it,
    and extend [all_embeddings] with the rows of the result. *)
Definition encode_batch (self : BaseModel) (sentences_batch : list string)
  : res (list (tensor float)) :=
  try! enc := tokenizer self sentences_batch (max_seq_length self) in
  try! embeddings := get_sentence_embeddings self (input_ids enc)
                       (attention_mask enc) (token_type_ids enc) in
  match embeddings with
  | None => Raise AttributeError          (* [None.detach()] *)
  | Some embeddings => Torch.rows embeddings
  end.

(** [torch.stack] and [np.asarray] need embeddings of one shape
    (a [RuntimeError], and since NumPy 1.24 a [ValueError], otherwise);
    [torch.stack] also needs at least one. *)
Definition uniform (ts : list (tensor float)) : bool :=
  match ts with
  | [] => true
  | t :: ts' => forallb (fun t' => bool_decide (shape t' = shape t)) ts'
  end.

Definition torch_stack (ts : list (tensor float)) : res encoded :=
  match ts with
  | [] => Raise RuntimeError
  | _ => if uniform ts then Ok (Embeddings TorchTensor ts)
         else Raise RuntimeError
  end.

Definition np_asarray (ts : list (tensor float)) : res encoded :=
  if uniform ts then Ok (Embeddings NdArray ts) else Raise ValueError.

(** [x[0]] on what [encode] has built. *)
Definition first_of (x : encoded) : res encoded :=
  match x with
  | Embeddings _ (t :: _) => Ok (Embedding t)
  | Embeddings _ [] => Raise IndexError
  | Embedding t =>                    (* not reached from [encode] *)
      try! r := Torch.rows t in
      match r with
      | t0 :: _ => Ok (Embedding t0)
      | [] => Raise IndexError
      end
  end.

(** [BaseSentenceModel.encode].  The progress bar and the device moves do
    not change the values and are left out. *)
Definition encode (self : BaseModel) (sentences : sentences_arg)
    (batch_size : Z) (convert_to_numpy convert_to_tensor : bool)
  : res encoded :=
  let convert_to_numpy := if convert_to_tensor then false else convert_to_numpy in
  let '(sentences, input_is_string) :=
    match sentences with
    | Single s => ([s], true)
    | Many l => (l, false)
    end in
  let length_sorted_idx :=
    argsort (map (fun s => (- Z.of_nat (String.length s))%Z) sentences) in
  try! sentences_sorted := gather sentences length_sorted_idx in
  try! starts := Py.range (length sentences) batch_size in
  try! all_embeddings :=
    for_each starts
      (fun all_embeddings start_index =>
         let sentences_batch :=
           Py.slice sentences_sorted start_index
                    (start_index + Z.to_nat batch_size) in
         try! embeddings := encode_batch self sentences_batch in
         Ok (all_embeddings ++ embeddings))
      [] in
  try! all_embeddings :=
    gather all_embeddings (argsort (map Z.of_nat length_sorted_idx)) in
  try! all_embeddings :=
    if convert_to_tensor then torch_stack all_embeddings
    else if convert_to_numpy then np_asarray all_embeddings
    else Ok (Embeddings PyList all_embeddings) in
  if input_is_string then first_of all_embeddings else Ok all_embeddings.

(** The report of a result dictionary: one line per key, keys sorted. *)
Definition sorted_keys (results : gmap string float) : list string :=
  merge_sort String.le (map fst (map_to_list results)).

Definition report_line (results : gmap string float) (key : string) : string :=
  key +:+ " = " +:+ str (default Float.zero (results !! key)) +:+ newline.

Definition report (results : gmap string float) : string :=
  String.concat EmptyString (map (report_line results) (sorted_keys results)).

(** One turn of the loop of [evaluate]: labels and predictions so far. *)
Definition evaluate_batch (self : BaseModel)
    (acc : list float * list float) (batch : eval_batch)
  : res (list float * list float) :=
  let '(batch_labels, batch_preds) := acc in
  let batch_labels := batch_labels ++ labels batch in
  try! source_input_ids := Torch.squeeze (input_ids (source batch)) 1 in
  try! source_attention_mask := Torch.squeeze (attention_mask (source batch)) 1 in
  try! source_token_type_ids := Torch.squeeze (token_type_ids (source batch)) 1 in
  try! target_input_ids := Torch.squeeze (input_ids (target batch)) 1 in
  try! target_attention_mask := Torch.squeeze (attention_mask (target batch)) 1 in
  try! target_token_type_ids := Torch.squeeze (token_type_ids (target batch)) 1 in
  try! source_embeddings :=
    get_sentence_embeddings self source_input_ids source_attention_mask
                            source_token_type_ids in
  try! target_embeddings :=
    get_sentence_embeddings self target_input_ids target_attention_mask
                            target_token_type_ids in
  match source_embeddings, target_embeddings with
  | Some s, Some t =>
      try! preds := cosine_similarity s t in
      Ok (batch_labels, batch_preds ++ preds)
  | _, _ => Raise TypeError
  end.

(** [BaseSentenceModel.evaluate] on the batches of the data loader.  It
    returns the result dictionary and the files it wrote. *)
Definition evaluate (self : BaseModel) (eval_dataloader : list eval_batch)
    (output_dir : option string)
  : res (gmap string float * list file_write) :=
  try! acc := for_each eval_dataloader (evaluate_batch self) ([], []) in
  let '(batch_labels, batch_preds) := acc in
  try! spearman := compute_spearmanr batch_labels batch_preds in
  try! pearson := compute_pearsonr batch_labels batch_preds in
  let results : gmap string float := ∅ in
  let results := <["eval_spearman" := spearman]> results in
  let results := <["eval_pearson" := pearson]> results in
  let written :=
    match output_dir with
    | Some dir =>
        if Py.truthy output_dir
        then [FileWrite (Py.path_join dir "eval_results.txt") (report results)]
        else []
    | None => []
    end in
  Ok (results, written).

End Model.

(** ** The remaining methods of the two classes *)

(** [[f(x) for x in xs]], where [f] may raise. *)
Fixpoint map_res {A B : Type} (f : A -> res B) (xs : list A) : res (list B) :=
  match xs with
  | [] => Ok []
  | x :: xs' =>
      try! y := f x in
      try! ys := map_res f xs' in
      Ok (y :: ys)
  end.

(** The batches that the loop of [encode] takes from the sorted sentences:
    [sentences_sorted[start:start + batch_size]] for [start] in
    [range(0, n, batch_size)], [n] being [len(sentences)]. *)
Definition sentence_batches (n : nat) (sentences_sorted : list string)
    (batch_size : Z) : res (list (list string)) :=
  try! starts := Py.range n batch_size in
  Ok (map (fun start_index =>
             Py.slice sentences_sorted start_index
                      (start_index + Z.to_nat batch_size))
          starts).

(** [self.model_info_dict], which [BaseModel.__init__] fills from the
    architecture and the encoder type. *)
Record model_info : Type := ModelInfo {
  info_module : string;
  info_model_arch : string;
  info_encoder_type : option string
}.

Section Methods.

Context {ModelArch : Type}.
Variable ModelArch_from_string : string -> res ModelArch.
Variable EncoderType_from_string : string -> res EncoderType.
Variable default_device : string.

(** [AutoTokenizer.from_pretrained] and [AutoModel.from_pretrained] *)
Variable AutoTokenizer_from_pretrained : option string -> res tokenizer_fn.
Variable AutoModel_from_pretrained : option string -> res transformer.

Variable cosine_similarity : tensor float -> tensor float -> res (list float).
Variable compute_spearmanr : list float -> list float -> res float.
Variable compute_pearsonr : list float -> list float -> res float.
Variable str : float -> string.

(** [str] and the truth value of the members of the two enumerations, and
    [json.dump]. *)
Variable str_ModelArch : ModelArch -> string.
Variable str_EncoderType : EncoderType -> string.
Variable bool_EncoderType : EncoderType -> bool.
Variable json_dump : model_info -> string.

(** [save_pretrained] of the model (or of the module it wraps) and of the
    tokenizer, and [os.makedirs(dir, exist_ok=True)]. *)
Variable model_save_pretrained : string -> res unit.
Variable tokenizer_save_pretrained : string -> res unit.
Variable makedirs : string -> res unit.

(** [BaseSentenceModel.__init__]: both loads come before the checks of
    [BaseModel.__init__].  Moving the model to the device does not change
    it. *)
Definition BaseSentenceModel_init (model_arch : arg ModelArch)
    (model_name_or_path : option string) (num_classes max_seq_length : Z)
    (encoder_type : arg EncoderType) (device : option string)
  : res (@BaseModel ModelArch) :=
  try! tokenizer := AutoTokenizer_from_pretrained model_name_or_path in
  try! model := AutoModel_from_pretrained model_name_or_path in
  BaseModel_init ModelArch_from_string EncoderType_from_string default_device
    model_arch model_name_or_path num_classes max_seq_length
    encoder_type device model tokenizer.

(** The two embeddings and the similarities of one batch of [evaluate]. *)
Definition batch_predictions (self : @BaseModel ModelArch) (batch : eval_batch)
  : res (list float) :=
  try! source_input_ids := Torch.squeeze (input_ids (source batch)) 1 in
  try! source_attention_mask := Torch.squeeze (attention_mask (source batch)) 1 in
  try! source_token_type_ids := Torch.squeeze (token_type_ids (source batch)) 1 in
  try! target_input_ids := Torch.squeeze (input_ids (target batch)) 1 in
  try! target_attention_mask := Torch.squeeze (attention_mask (target batch)) 1 in
  try! target_token_type_ids := Torch.squeeze (token_type_ids (target batch)) 1 in
  try! source_embeddings :=
    get_sentence_embeddings self source_input_ids source_attention_mask
                            source_token_type_ids in
  try! target_embeddings :=
    get_sentence_embeddings self target_input_ids target_attention_mask
                            target_token_type_ids in
  match source_embeddings, target_embeddings with
  | Some s, Some t => cosine_similarity s t
  | _, _ => Raise TypeError
  end.

(** [self.results.update(result)] *)
Definition update_results (self : @BaseModel ModelArch)
    (result : gmap string float) : @BaseModel ModelArch :=
  {| model_arch := model_arch self;
     encoder_type := encoder_type self;
     device := device self;
     model_name_or_path := model_name_or_path self;
     num_classes := num_classes self;
     max_seq_length := max_seq_length self;
     model := model self;
     tokenizer := tokenizer self;
     results := result ∪ results self |}.

(** [BaseSentenceModel.eval_model]: the model with its updated results,
    the result of this run and the files written.  Logging is left out. *)
Definition eval_model (self : @BaseModel ModelArch)
    (eval_dataset : list eval_batch) (output_dir : option string)
  : res (@BaseModel ModelArch * gmap string float * list file_write) :=
  try! r := evaluate cosine_similarity compute_spearmanr compute_pearsonr str
              self eval_dataset output_dir in
  Ok (update_results self (fst r), fst r, snd r).

Definition model_info_dict (self : @BaseModel ModelArch) : model_info :=
  {| info_module := "TEXT2VEC";
     info_model_arch := str_ModelArch (model_arch self);
     info_encoder_type :=
       match encoder_type self with
       | Some e => if bool_EncoderType e then Some (str_EncoderType e) else None
       | None => None
       end |}.

(** [BaseModel.save_model]: the files it writes itself, in order, after
    the model and the tokenizer have been saved.  [results] is [None] by
    default. *)
Definition save_model (self : @BaseModel ModelArch) (output_dir : string)
    (results : option (gmap string float)) : res (list file_write) :=
  try! _m := makedirs output_dir in
  try! _s := model_save_pretrained output_dir in
  try! _t := tokenizer_save_pretrained output_dir in
  let info :=
    FileWrite (Py.path_join output_dir ".json") (json_dump (model_info_dict self)) in
  match results with
  | Some results =>
      if bool_decide (results = ∅) then Ok [info]
      else Ok [info;
               FileWrite (Py.path_join output_dir "eval_results.txt")
                         (report str results)]
  | None => Ok [info]
  end.

End Methods.

(** The positions of sentence [b] that the attention mask marks as real
    tokens, among the first [l]. *)
Definition real_tokens (mask : tensor Z) (b l : nat) : list nat :=
  filter (fun j => bool_decide (data mask [b; j] = 1%Z)) (seq 0 l).

(** [f j] added up over the positions [js], from the left. *)
Definition sum_over (js : list nat) (f : nat -> float) : float :=
  fold_left (fun acc j => Float.add acc (f j)) js Float.zero.

(** The list [encode] works on, a single string being wrapped. *)
Definition sentence_list (sentences : sentences_arg) : list string :=
  match sentences with
  | Single s => [s]
  | Many l => l
  end.

(** ** Pooling over any tensor arithmetic

    [pool] above computes with exact rationals.  The same branches are
    given here over an arithmetic that is a parameter: how an element is
    multiplied, divided and clamped, and in which order [torch.sum] and
    [torch.avg_pool1d] add.  With float32 the order matters, since
    rounded addition is not associative. *)

Record arithmetic (A : Type) : Type := Arithmetic {
  of_int : Z -> A;                      (* [.float()], and the kernel size *)
  times : A -> A -> A;
  divide : A -> A -> A;
  at_least : A -> A -> A;               (* [clamp(min=m)] on one element *)
  tiny : A;                             (* [1e-9] *)
  reduce : nat -> (nat -> A) -> A;      (* the additions of [torch.sum] *)
  accumulate : nat -> (nat -> A) -> A   (* the additions of [avg_pool1d] *)
}.
Arguments Arithmetic {A} of_int times divide at_least tiny reduce accumulate.
Arguments of_int {A} a z.
Arguments times {A} a x y.
Arguments divide {A} a x y.
Arguments at_least {A} a m x.
Arguments tiny {A} a.
Arguments reduce {A} a n f.
Arguments accumulate {A} a n f.

Record outputs (A : Type) : Type := Outputs {
  hidden_states_in : list (tensor A);
  last_hidden_state_in : tensor A;
  pooler_output_in : option (tensor A)
}.
Arguments Outputs {A} hidden_states_in last_hidden_state_in pooler_output_in.
Arguments hidden_states_in {A} o.
Arguments last_hidden_state_in {A} o.
Arguments pooler_output_in {A} o.

Module TorchIn.
Section Ops.
Context {A : Type} (ar : arithmetic A).

(** [t.float()] on an integer tensor. *)
Definition float_ (t : tensor Z) : tensor A :=
  Tensor (shape t) (fun ix => of_int ar (data t ix)).

(** Element-wise binary operation on two tensors of one shape. *)
Definition pointwise (f : A -> A -> A) (a b : tensor A) : res (tensor A) :=
  if bool_decide (shape a = shape b)
  then Ok (Tensor (shape a) (fun ix => f (data a ix) (data b ix)))
  else Raise RuntimeError.

Definition mul := pointwise (times ar).
Definition div := pointwise (divide ar).

(** [torch.sum(t, d)] *)
Definition sum (t : tensor A) (d : Z) : res (tensor A) :=
  try! i := Torch.wrap_dim (Torch.rank t) d in
  Ok (Tensor (delete i (shape t))
        (fun ix => reduce ar (nth i (shape t) 0)
                     (fun j => data t (Torch.insert_at i j ix)))).

(** [torch.clamp(t, min=m)] *)
Definition clamp (t : tensor A) (m : A) : tensor A :=
  Tensor (shape t) (fun ix => at_least ar m (data t ix)).

(** [torch.avg_pool1d(t, kernel_size=k)], as [Torch.avg_pool1d]. *)
Definition avg_pool1d (t : tensor A) (k : nat) : res (tensor A) :=
  match reverse (shape t) with
  | l :: c :: pre =>
      if (length pre <=? 1) && (0 <? k) && (0 <? c) && (k <=? l)
      then
        let p := length pre + 1 in
        Ok (Tensor (reverse ((l - k) / k + 1 :: c :: pre))
              (fun ix =>
                 let o := nth p ix 0 in
                 divide ar
                   (accumulate ar k (fun j => data t (<[p := o * k + j]> ix)))
                   (of_int ar (Z.of_nat k))))
      else Raise RuntimeError
  | _ => Raise RuntimeError
  end.

End Ops.
End TorchIn.

(** The branches of [get_sentence_embeddings] over the arithmetic [ar]. *)
Definition pool_in {A : Type} (ar : arithmetic A)
    (encoder_type : option EncoderType) (out : outputs A)
    (attention_mask : tensor Z) : res (option (tensor A)) :=
  match encoder_type with
  | Some FIRST_LAST_AVG =>
      try! first := Py.index (hidden_states_in out) 1 in
      try! last := Py.index (hidden_states_in out) (-1) in
      try! seq_length := Torch.size first 1 in
      try! first_t := Torch.transpose first 1 2 in
      try! first_p := TorchIn.avg_pool1d ar first_t seq_length in
      try! first_avg := Torch.squeeze first_p (-1) in
      try! last_t := Torch.transpose last 1 2 in
      try! last_p := TorchIn.avg_pool1d ar last_t seq_length in
      try! last_avg := Torch.squeeze last_p (-1) in
      try! first_u := Torch.unsqueeze first_avg 1 in
      try! last_u := Torch.unsqueeze last_avg 1 in
      try! both := Torch.cat [first_u; last_u] 1 in
      try! both_t := Torch.transpose both 1 2 in
      try! both_p := TorchIn.avg_pool1d ar both_t 2 in
      try! final_encoding := Torch.squeeze both_p (-1) in
      Ok (Some final_encoding)
  | Some LAST_AVG =>
      let sequence_output := last_hidden_state_in out in
      try! seq_length := Torch.size sequence_output 1 in
      try! seq_t := Torch.transpose sequence_output 1 2 in
      try! seq_p := TorchIn.avg_pool1d ar seq_t seq_length in
      try! final_encoding := Torch.squeeze seq_p (-1) in
      Ok (Some final_encoding)
  | Some CLS =>
      let sequence_output := last_hidden_state_in out in
      try! first_token := Torch.select_col sequence_output 0 in
      Ok (Some first_token)
  | Some POOLER =>
      Ok (pooler_output_in out)
  | Some MEAN =>
      let token_embeddings := last_hidden_state_in out in
      try! mask_u := Torch.unsqueeze attention_mask (-1) in
      try! mask_e := Torch.expand mask_u (shape token_embeddings) in
      let input_mask_expanded := TorchIn.float_ ar mask_e in
      try! weighted := TorchIn.mul ar token_embeddings input_mask_expanded in
      try! total := TorchIn.sum ar weighted 1 in
      try! count := TorchIn.sum ar input_mask_expanded 1 in
      try! final_encoding := TorchIn.div ar total (TorchIn.clamp ar count (tiny ar)) in
      Ok (Some final_encoding)
  | None => Ok None
  end.

(** Exact arithmetic: the one of [pool]. *)
Definition exact : arithmetic float :=
  {| of_int := Float.of_Z;
     times := Float.mul;
     divide := Float.div;
     at_least := Float.clamp_min;
     tiny := floor_1e9;
     reduce := Float.sum;
     accumulate := Float.sum |}.

Definition outputs_of (out : model_output) : outputs float :=
  {| hidden_states_in := hidden_states out;
     last_hidden_state_in := last_hidden_state out;
     pooler_output_in := pooler_output out |}.

(** IEEE 754 binary32 (24 bits of precision, round to nearest even), the
    element type of the tensors the transformer returns. *)
Module Binary32.

Definition t : Type := SpecFloat.spec_float.

Definition of_Z (z : Z) : t := SpecFloat.binary_normalize 24 128 z 0 false.
Definition zero : t := SpecFloat.S754_zero false.
Definition add : t -> t -> t := SpecFloat.SFadd 24 128.
Definition mul : t -> t -> t := SpecFloat.SFmul 24 128.
Definition div : t -> t -> t := SpecFloat.SFdiv 24 128.

Definition clamp_min (m x : t) : t :=
  match x with
  | SpecFloat.S754_nan => x
  | _ => if SpecFloat.SFleb m x then x else m
  end.

(** [f 0 + ... + f (n-1)] into one accumulator, from the left: the loop of
    a pooling window. *)
Fixpoint sum_left (n : nat) (f : nat -> t) : t :=
  match n with
  | O => zero
  | S n' => add (sum_left n' f) (f n')
  end.

(** [f lo + ... + f (lo+len-1)] by halves: the two halves are added up
    separately and then together, as a vectorised reduction does. *)
Fixpoint sum_pairwise (fuel lo len : nat) (f : nat -> t) : t :=
  match fuel with
  | O => zero
  | S fuel' =>
      match len with
      | 0 => zero
      | 1 => f lo
      | _ => let h := len / 2 in
             add (sum_pairwise fuel' lo h f)
                 (sum_pairwise fuel' (lo + h) (len - h) f)
      end
  end.

End Binary32.

(** Float32 arithmetic.  The order in which a kernel adds is a property of
    the library, not of this file's source: [torch.sum] is taken to reduce
    pairwise and [avg_pool1d] to accumulate from the left. *)
Definition binary32 : arithmetic Binary32.t :=
  {| of_int := Binary32.of_Z;
     times := Binary32.mul;
     divide := Binary32.div;
     at_least := Binary32.clamp_min;
     tiny := Binary32.div (Binary32.of_Z 1) (Binary32.of_Z 1000000000);
     reduce := fun n f => Binary32.sum_pairwise n 0 n f;
     accumulate := Binary32.sum_left |}.

(** What makes the two mean variants agree on an unpadded sentence:
    multiplying by the mask value one changes nothing, a count of at least
    one passes the floor, and both kernels add in the same order. *)
Record same_order {A : Type} (ar : arithmetic A) : Prop := SameOrder {
  times_one : forall x, times ar x (of_int ar 1) = x;
  reduce_ext : forall n f g,
    (forall j, j < n -> f j = g j) -> reduce ar n f = reduce ar n g;
  count_kept : forall n, 0 < n ->
    at_least ar (tiny ar) (reduce ar n (fun _ => of_int ar 1))
    = of_int ar (Z.of_nat n);
  one_order : forall n f, reduce ar n f = accumulate ar n f
}.

(** ** Notions used in the statements *)

(** The unweighted mean of the token vectors of sentence [b] over the
    sequence dimension of length [l], at hidden coordinate [h]. *)
Definition seq_mean (l : nat) (x : tensor float) (b h : nat) : float :=
  Float.div (Float.sum l (fun j => data x [b; j; h])) (Float.of_nat l).

(** What [np.argsort] promises: the indices of the keys, each once, in an
    order that makes the keys non-decreasing.  Ties may come in any order
    (the default sort kind is not stable). *)
Definition is_argsort (keys : list Z) (idx : list nat) : Prop :=
  idx ≡ₚ seq 0 (length keys) ∧
  Sorted Z.le (map (fun i => nth i keys 0%Z) idx).

(** The encoder handles every non-empty batch drawn from [sentences]: it
    returns one embedding of shape [sh] per sentence of the batch. *)
Definition embeds_batches {ModelArch : Type} (self : @BaseModel ModelArch)
    (sentences : list string) (sh : list nat) : Prop :=
  forall batch : list string,
    batch <> [] -> batch ⊆ sentences ->
    exists rows, encode_batch self batch = Ok rows
              /\ length rows = length batch
              /\ Forall (fun r => shape r = sh) rows.

(** [e] is the embedding that the encoder computed for sentence [s] in one
    of the batches drawn from [sentences]. *)
Definition embedding_of {ModelArch : Type} (self : @BaseModel ModelArch)
    (sentences : list string) (s : string) (e : tensor float) : Prop :=
  exists batch rows r,
    batch ⊆ sentences
    /\ encode_batch self batch = Ok rows
    /\ batch !! r = Some s
    /\ rows !! r = Some e.

(** What holds of [all_embeddings] between two turns of the batch loop:
    position [j] holds an embedding of the [j]-th sentence in sorted
    order. *)
Definition aligned {ModelArch : Type} (self : @BaseModel ModelArch)
    (sentences : list string) (sh : list nat)
    (sorted : list string) (acc : list (tensor float)) : Prop :=
  Forall (fun e => shape e = sh) acc
  /\ forall j e, acc !! j = Some e ->
       exists s, sorted !! j = Some s /\ embedding_of self sentences s e.

(** The container that the two conversion flags of [encode] select. *)
Definition container_of (convert_to_numpy convert_to_tensor : bool) : container :=
  if convert_to_tensor then TorchTensor
  else if convert_to_numpy then NdArray else PyList.

(** ** Concrete instances used in examples *)

(** A stable argsort, as [np.argsort(kind='stable')] computes it: the
    indices are ordered by key, and by position where the keys are equal. *)
Definition key_le (a b : Z * nat) : Prop :=
  (a.1 < b.1)%Z \/ (a.1 = b.1 /\ a.2 <= b.2).

Global Instance key_le_dec : RelDecision key_le.
Proof. intros a b. unfold key_le. apply _. Defined.

Definition argsort_stable (keys : list Z) : list nat :=
  map snd (merge_sort key_le (zip keys (seq 0 (length keys)))).

(** Tensors written out as nested lists. *)
Definition tensor_of2 {A : Type} (d : A) (rows : list (list A)) : tensor A :=
  Tensor [length rows; length (nth 0 rows [])]
         (fun ix => nth (nth 1 ix 0) (nth (nth 0 ix 0) rows []) d).

Definition tensor_of3 {A : Type} (d : A) (mats : list (list (list A)))
  : tensor A :=
  Tensor [length mats; length (nth 0 mats []); length (nth 0 (nth 0 mats []) [])]
         (fun ix => nth (nth 2 ix 0)
                      (nth (nth 1 ix 0) (nth (nth 0 ix 0) mats []) []) d).

(** The elements of a tensor of rank two, row by row. *)
Definition to_list2 {A : Type} (t : tensor A) : list (list A) :=
  map (fun b => map (fun h => data t [b; h]) (seq 0 (nth 1 (shape t) 0)))
      (seq 0 (nth 0 (shape t) 0)).

Definition floats (qs : list Q) : list float := map Finite qs.

(** A tokenizer for examples: a leading marker token, then one token per
    character, truncated at [max_length] and padded with zeros to the
    longest sentence of the batch. *)
Definition example_tokenizer : tokenizer_fn := fun batch max_length =>
  let longest := foldr Nat.max 0 (map String.length batch) in
  let l := S (longest `min` Z.to_nat max_length) in
  let len b := S (String.length (nth b batch EmptyString) `min` Z.to_nat max_length) in
  let sh := [length batch; l] in
  Ok {| input_ids :=
          Tensor sh (fun ix =>
            let b := nth 0 ix 0 in
            let t := nth 1 ix 0 in
            if t =? 0 then 101%Z
            else if t <? len b
                 then match String.get (t - 1) (nth b batch EmptyString) with
                      | Some c => Z.of_nat (Ascii.nat_of_ascii c)
                      | None => 0%Z
                      end
                 else 0%Z);
        attention_mask :=
          Tensor sh (fun ix => if nth 1 ix 0 <? len (nth 0 ix 0) then 1%Z else 0%Z);
        token_type_ids := Tensor sh (fun _ => 0%Z) |}.

(** A transformer for examples, with hidden size two: an embedding layer
    followed by two layers, and a pooling head. *)
Definition example_transformer : transformer := fun ids mask types =>
  let sh := shape ids ++ [2] in
  let embedded :=
    Tensor sh (fun ix => Float.of_Z (data ids (take 2 ix) + Z.of_nat (nth 2 ix 0))) in
  let layer1 :=
    Tensor sh (fun ix => Float.mul (data embedded ix)
                           (Float.of_Z (data mask (take 2 ix)))) in
  let layer2 :=
    Tensor sh (fun ix => Float.add (data layer1 ix) (Finite (1 # 2))) in
  let pooled :=
    Tensor [nth 0 (shape ids) 0; 2] (fun ix => data layer2 [nth 0 ix 0; 0; nth 1 ix 0]) in
  Ok (ModelOutput [embedded; layer1; layer2] layer2 (Some pooled)).

Definition example_model (encoder_type : option EncoderType) : @BaseModel unit :=
  {| model_arch := tt;
     encoder_type := encoder_type;
     device := "cpu";
     model_name_or_path := Some "bert-base";
     num_classes := 2;
     max_seq_length := 128;
     model := example_transformer;
     tokenizer := example_tokenizer;
     results := ∅ |}.

(** Model output for a batch of two sentences of two tokens each, with
    hidden size two, and two attention masks for it: one without padding,
    one whose second sentence has no real token. *)
Definition example_first : tensor float :=
  tensor_of3 Float.zero [[floats [1; 2]%Q; floats [3; 4]%Q];
                         [floats [0; 2]%Q; floats [4; 6]%Q]].

Definition example_last : tensor float :=
  tensor_of3 Float.zero [[floats [5; 6]%Q; floats [7; 8]%Q];
                         [floats [9; 10]%Q; floats [11; 12]%Q]].

Definition example_output : model_output :=
  ModelOutput [example_first; example_first; example_last] example_last
              (Some (tensor_of2 Float.zero [floats [5; 6]%Q; floats [9; 10]%Q])).

Definition ones_mask : tensor Z := tensor_of2 0%Z [[1; 1]; [1; 1]]%Z.
Definition zero_mask : tensor Z := tensor_of2 0%Z [[1; 1]; [0; 0]]%Z.

(** Test doubles for the similarity and correlation helpers, and an
    evaluation batch of two pairs. *)
Definition example_cosine (a b : tensor float) : res (list float) :=
  Ok (map (fun _ => Finite 1) (seq 0 (nth 0 (shape a) 0))).

Definition example_correlation (xs ys : list float) : res float :=
  Ok (Finite (inject_Z (Z.of_nat (length xs + length ys)))).

Definition example_str (x : float) : string :=
  match x with
  | Finite q => if Qeq_bool q 4 then "4.0" else "0.5"
  | _ => "nan"
  end.

Definition example_encoding : encoding :=
  {| input_ids := Tensor [2; 1; 3] (fun _ => 7%Z);
     attention_mask := Tensor [2; 1; 3] (fun _ => 1%Z);
     token_type_ids := Tensor [2; 1; 3] (fun _ => 0%Z) |}.

Definition example_batch : eval_batch :=
  {| source := example_encoding;
     target := example_encoding;
     labels := floats [5; 4]%Q |}.

(** A transformer for examples that cannot handle batches padded to fewer
    than four positions. *)
Definition fussy_transformer : transformer := fun ids mask types =>
  if nth 1 (shape ids) 0 <? 4 then Raise RuntimeError
  else example_transformer ids mask types.

Definition fussy_model : @BaseModel unit :=
  {| model_arch := tt;
     encoder_type := Some CLS;
     device := "cpu";
     model_name_or_path := Some "bert-base";
     num_classes := 2;
     max_seq_length := 128;
     model := fussy_transformer;
     tokenizer := example_tokenizer;
     results := ∅ |}.

(** One sentence embedding of the example encoder under CLS pooling. *)
Definition example_embedding (s : string) : tensor float :=
  Tensor [2] (fun ix =>
    Float.add (Float.mul (Float.of_Z (101 + Z.of_nat (nth 0 ix 0)))
                         (Float.of_Z 1))
              (Finite (1 # 2))).

(** A mask whose second sentence has one real token and one padding
    position, a model output that differs from [example_output] at that
    padding position only, and the output of a model without layers. *)
Definition padded_mask : tensor Z := tensor_of2 0%Z [[1; 1]; [1; 0]]%Z.

Definition example_last_alt : tensor float :=
  tensor_of3 Float.zero [[floats [5; 6]%Q; floats [7; 8]%Q];
                         [floats [9; 10]%Q; floats [100; 200]%Q]].

Definition example_output_alt : model_output :=
  ModelOutput [example_first; example_first; example_last_alt] example_last_alt
              None.

Definition embeddings_only_output : model_output :=
  ModelOutput [example_first] example_first None.

(** One sentence of eight tokens with hidden size one, the first token
    vector being [2^24] and the others one, in float32 and exactly; its
    attention mask without padding; and a model output with an infinite
    hidden state in the second sentence. *)
Definition example_large : list Z := [16777216; 1; 1; 1; 1; 1; 1; 1]%Z.

Definition example_output32 : outputs Binary32.t :=
  let hidden :=
    Tensor [1; 8; 1]
      (fun ix => Binary32.of_Z (nth (nth 1 ix 0) example_large 0%Z)) in
  Outputs [hidden; hidden] hidden None.

Definition example_output_large : model_output :=
  let hidden :=
    Tensor [1; 8; 1]
      (fun ix => Float.of_Z (nth (nth 1 ix 0) example_large 0%Z)) in
  ModelOutput [hidden; hidden] hidden None.

Definition ones_mask8 : tensor Z := Tensor [1; 8] (fun _ => 1%Z).

Definition example_last_inf : tensor float :=
  tensor_of3 Float.zero [[floats [5; 6]%Q; floats [7; 8]%Q];
                         [[PInf; Finite 10]; floats [11; 12]%Q]].

Definition example_output_inf : model_output :=
  ModelOutput [example_first; example_first; example_last_inf] example_last_inf
              None.

(** * Properties *)

(** ** Arithmetic of tensor elements *)

Module FloatFacts.

Global Instance eqv_equiv : Equivalence Float.eqv.
Proof.
  split.
  - intros [q| | |]; simpl; auto. reflexivity.
  - intros [a| | |] [b| | |]; simpl; auto. intros H. symmetry. exact H.
  - intros [a| | |] [b| | |] [c| | |]; simpl; auto; try contradiction.
    intros H1 H2. rewrite H1. exact H2.
Qed.

Lemma sign_proper x y : x ≈ y -> Float.sign x = Float.sign y.
Proof.
  destruct x as [a| | |], y as [b| | |]; simpl; try contradiction; auto.
  intros H. rewrite H. reflexivity.
Qed.

Global Instance add_proper : Proper (Float.eqv ==> Float.eqv ==> Float.eqv) Float.add.
Proof.
  intros [a| | |] [b| | |] H1 [c| | |] [d| | |] H2;
    simpl in *; try contradiction; auto.
  rewrite H1, H2. reflexivity.
Qed.

Global Instance mul_proper : Proper (Float.eqv ==> Float.eqv ==> Float.eqv) Float.mul.
Proof.
  intros x x' H1 y y' H2.
  pose proof (sign_proper _ _ H1) as S1.
  pose proof (sign_proper _ _ H2) as S2.
  destruct x as [a| | |], x' as [b| | |]; simpl in H1; try contradiction;
    destruct y as [c| | |], y' as [d| | |]; simpl in H2; try contradiction;
    unfold Float.mul; try rewrite S1; try rewrite S2; try reflexivity.
  simpl. rewrite H1, H2. reflexivity.
Qed.

Lemma Qeq_bool_proper a b c d : a == b -> c == d -> Qeq_bool a c = Qeq_bool b d.
Proof.
  intros H1 H2.
  destruct (Qeq_bool a c) eqn:E1, (Qeq_bool b d) eqn:E2; auto.
  - apply Qeq_bool_iff in E1. apply Qeq_bool_neq in E2.
    exfalso. apply E2. rewrite <- H1, <- H2. exact E1.
  - apply Qeq_bool_iff in E2. apply Qeq_bool_neq in E1.
    exfalso. apply E1. rewrite H1, H2. exact E2.
Qed.

Global Instance div_proper : Proper (Float.eqv ==> Float.eqv ==> Float.eqv) Float.div.
Proof.
  intros x x' H1 y y' H2.
  destruct x as [a| | |], x' as [b| | |]; simpl in H1; try contradiction;
    destruct y as [c| | |], y' as [d| | |]; simpl in H2; try contradiction;
    simpl; auto; try reflexivity.
  - rewrite (Qeq_bool_proper c d 0 0 H2 (Qeq_refl 0)).
    destruct (Qeq_bool d 0) eqn:E.
    + rewrite H1. reflexivity.
    + simpl. rewrite H1, H2. reflexivity.
  - rewrite (Qeq_bool_proper c d 0 0 H2 (Qeq_refl 0)). rewrite H2. reflexivity.
  - rewrite (Qeq_bool_proper c d 0 0 H2 (Qeq_refl 0)). rewrite H2. reflexivity.
Qed.

Lemma add_zero_l x : Float.add Float.zero x ≈ x.
Proof. destruct x; simpl; auto. ring. Qed.

Lemma mul_one_r x : Float.mul x (Float.of_Z 1) ≈ x.
Proof.
  destruct x as [a| | |]; simpl; auto. unfold inject_Z. ring.
Qed.

Lemma mul_zero_r x :
  Float.is_finite x = true -> Float.mul x (Float.of_Z 0) ≈ Float.zero.
Proof.
  destruct x as [a| | |]; simpl; try discriminate. intros _.
  unfold inject_Z. ring.
Qed.

Lemma sum_ext n f g :
  (forall j, j < n -> f j ≈ g j) -> Float.sum n f ≈ Float.sum n g.
Proof.
  induction n as [|n IH]; intros H; simpl.
  - reflexivity.
  - rewrite IH by (intros; apply H; lia). rewrite (H n) by lia. reflexivity.
Qed.

(** Adding up [n] ones gives [n]. *)
Lemma sum_ones n f :
  (forall j, j < n -> f j ≈ Float.of_Z 1) -> Float.sum n f ≈ Float.of_nat n.
Proof.
  induction n as [|n IH]; intros H.
  - reflexivity.
  - simpl. rewrite IH by (intros; apply H; lia). rewrite (H n) by lia.
    unfold Float.of_nat, Float.of_Z. simpl.
    rewrite <- inject_Z_plus. rewrite Nat2Z.inj_succ. reflexivity.
Qed.

(** Adding up zeros gives zero. *)
Lemma sum_zeros n f :
  (forall j, j < n -> f j ≈ Float.zero) -> Float.sum n f ≈ Float.zero.
Proof.
  induction n as [|n IH]; intros H.
  - reflexivity.
  - simpl. rewrite IH by (intros; apply H; lia). rewrite (H n) by lia.
    simpl. ring.
Qed.

(** The floor of [1e-9] leaves a count of at least one unchanged and
    replaces a count of zero. *)
Lemma clamp_count n :
  0 < n -> Float.clamp_min floor_1e9 (Float.of_nat n) = Float.of_nat n.
Proof.
  intros H. unfold Float.clamp_min, Float.of_nat, Float.of_Z, floor_1e9.
  simpl. destruct (Qle_bool (1 # 1000000000) (inject_Z (Z.of_nat n))) eqn:E; auto.
  exfalso. assert (Hle : (1 # 1000000000 <= inject_Z (Z.of_nat n))%Q).
  { unfold Qle, inject_Z. simpl. lia. }
  apply Qle_bool_iff in Hle. congruence.
Qed.

Lemma Qle_bool_proper c a b : a == b -> Qle_bool c a = Qle_bool c b.
Proof.
  intros H.
  destruct (Qle_bool c a) eqn:E1, (Qle_bool c b) eqn:E2; auto.
  - apply Qle_bool_iff in E1. rewrite H in E1.
    apply Qle_bool_iff in E1. congruence.
  - apply Qle_bool_iff in E2. rewrite <- H in E2.
    apply Qle_bool_iff in E2. congruence.
Qed.

Global Instance clamp_proper m :
  Proper (Float.eqv ==> Float.eqv) (Float.clamp_min m).
Proof.
  intros x y.
  destruct x as [a| | |], y as [b| | |]; simpl; try contradiction;
    intros H; destruct m as [c| | |]; simpl; auto; try reflexivity.
  rewrite (Qle_bool_proper c a b H).
  destruct (Qle_bool c b); simpl; auto. reflexivity.
Qed.

Lemma clamp_zero x :
  x ≈ Float.zero -> Float.clamp_min floor_1e9 x = floor_1e9.
Proof.
  destruct x as [a| | |]; simpl; try contradiction. intros H.
  destruct (Qle_bool (1 # 1000000000) a) eqn:E; auto.
  apply Qle_bool_iff in E. rewrite H in E. exfalso. revert E.
  unfold Qle. simpl. lia.
Qed.

Lemma div_zero_floor x : x ≈ Float.zero -> Float.div x floor_1e9 ≈ Float.zero.
Proof.
  destruct x as [a| | |]; simpl; try contradiction. intros H.
  rewrite H. reflexivity.
Qed.

End FloatFacts.
Import FloatFacts.

(** ** Equations of the tensor operations at the shapes the encoder uses *)

Module TorchFacts.

Section Rank3.
Context {A : Type} (d : list nat -> A) (n l c : nat).

Lemma size_1 : Torch.size (Tensor [n; l; c] d) 1 = Ok l.
Proof. reflexivity. Qed.

Lemma transpose_1_2 :
  Torch.transpose (Tensor [n; l; c] d) 1 2 =
  Ok (Tensor [n; c; l] (fun ix => d (Torch.swap 1 2 ix))).
Proof. reflexivity. Qed.

Lemma squeeze_last_1 :
  Torch.squeeze (Tensor [n; c; 1] d) (-1) =
  Ok (Tensor [n; c] (fun ix => d (Torch.insert_at 2 0 ix))).
Proof. reflexivity. Qed.

Lemma expand_last :
  Torch.expand (Tensor [n; l; 1] d) [n; l; c] =
  Ok (Tensor [n; l; c]
        (fun ix => d (zip_with (fun s i => if s =? 1 then 0 else i)
                               [n; l; 1] ix))).
Proof.
  unfold Torch.expand, Torch.expandable. simpl.
  rewrite !Nat.eqb_refl. destruct c as [|[|c']]; reflexivity.
Qed.
End Rank3.

Lemma unsqueeze_last_2 {A : Type} (d : list nat -> A) (n l : nat) :
  Torch.unsqueeze (Tensor [n; l] d) (-1) =
  Ok (Tensor [n; l; 1] (fun ix => d (delete 2 ix))).
Proof. reflexivity. Qed.

Lemma unsqueeze_1_2 {A : Type} (d : list nat -> A) (n c : nat) :
  Torch.unsqueeze (Tensor [n; c] d) 1 =
  Ok (Tensor [n; 1; c] (fun ix => d (delete 1 ix))).
Proof. reflexivity. Qed.

Lemma sum_1 (d : list nat -> float) (n l c : nat) :
  Torch.sum (Tensor [n; l; c] d) 1 =
  Ok (Tensor [n; c]
        (fun ix => Float.sum l (fun j => d (Torch.insert_at 1 j ix)))).
Proof. reflexivity. Qed.

Lemma cat_1_pair {A : Type} (da db : list nat -> A) (n c : nat) :
  Torch.cat [Tensor [n; 1; c] da; Tensor [n; 1; c] db] 1 =
  Ok (Tensor [n; 2; c]
        (Torch.cat_data (Tensor [n; 1; c] da) [Tensor [n; 1; c] db] 1)).
Proof.
  unfold Torch.cat.
  change (Torch.wrap_dim (Torch.rank (Tensor [n; 1; c] da)) 1) with (@Ok nat 1).
  unfold bind. simpl forallb.
  rewrite !bool_decide_eq_true_2 by reflexivity. reflexivity.
Qed.

Lemma pointwise_same f (a b : tensor float) :
  shape a = shape b ->
  Torch.pointwise f a b =
  Ok (Tensor (shape a) (fun ix => f (data a ix) (data b ix))).
Proof.
  intros H. unfold Torch.pointwise.
  rewrite bool_decide_eq_true_2 by exact H. reflexivity.
Qed.

(** Pooling with a kernel as long as the input leaves one value per
    channel: the mean over the whole length. *)
Lemma avg_pool1d_full (t : tensor float) (n c l : nat) :
  shape t = [n; c; l] -> 0 < c -> 0 < l ->
  Torch.avg_pool1d t l =
  Ok (Tensor [n; c; 1]
        (fun ix => Float.div
                     (Float.sum l (fun j => data t (<[2 := nth 2 ix 0 * l + j]> ix)))
                     (Float.of_nat l))).
Proof.
  intros Hs Hc Hl. unfold Torch.avg_pool1d. rewrite Hs. simpl.
  destruct (Nat.ltb_spec 0 l); [|lia].
  destruct (Nat.ltb_spec 0 c); [|lia].
  rewrite Nat.leb_refl. simpl.
  rewrite Nat.sub_diag, Nat.Div0.div_0_l by lia. reflexivity.
Qed.

(** An index below the size of its dimension is kept by [expand]. *)
Lemma expand_index s i : i < s -> (if s =? 1 then 0 else i) = i.
Proof. intros H. destruct (Nat.eqb_spec s 1); lia. Qed.

End TorchFacts.
Import TorchFacts.

(** ** Pooling *)

(** Run the next tensor operation of a branch with its equation [lem]. *)
Tactic Notation "step" uconstr(lem) :=
  rewrite lem; unfold bind at 1.
Tactic Notation "step_by" uconstr(lem) tactic(tac) :=
  rewrite lem by tac; unfold bind at 1.

Section Pooling.
Variable out : model_output.
Variable mask : tensor Z.
Variables B L H : nat.

Lemma pool_LAST_AVG_mean :
  shape (last_hidden_state out) = [B; L; H] -> 0 < L -> 0 < H ->
  exists t, pool (Some LAST_AVG) out mask = Ok (Some t)
         /\ shape t = [B; H]
         /\ forall b h, data t [b; h] = seq_mean L (last_hidden_state out) b h.
Proof.
  intros Hs HL HH. unfold pool.
  destruct (last_hidden_state out) as [sh d]. simpl in Hs. subst sh.
  step size_1. step transpose_1_2.
  step_by (avg_pool1d_full _ B H L) auto.
  step squeeze_last_1.
  eexists. split; [reflexivity|]. split; [reflexivity|].
  intros b h. reflexivity.
Qed.

Lemma pool_MEAN_weighted :
  shape (last_hidden_state out) = [B; L; H] -> shape mask = [B; L] ->
  exists t, pool (Some MEAN) out mask = Ok (Some t)
         /\ shape t = [B; H]
         /\ forall b h, b < B ->
              data t [b; h] ≈
              Float.div
                (Float.sum L (fun j => Float.mul (data (last_hidden_state out) [b; j; h])
                                         (Float.of_Z (data mask [b; j]))))
                (Float.clamp_min floor_1e9
                   (Float.sum L (fun j => Float.of_Z (data mask [b; j])))).
Proof.
  intros Hs Hm. unfold pool.
  destruct (last_hidden_state out) as [sh d]. simpl in Hs. subst sh.
  destruct mask as [shm m]. simpl in Hm. subst shm.
  step unsqueeze_last_2. simpl shape.
  step expand_last.
  unfold Torch.mul, Torch.div. step_by pointwise_same reflexivity.
  unfold Torch.float_. simpl shape. simpl data.
  step sum_1. step sum_1.
  step_by pointwise_same reflexivity.
  eexists. split; [reflexivity|]. split; [reflexivity|].
  intros b h Hb. simpl.
  apply div_proper.
  - apply sum_ext. intros j Hj. rewrite !expand_index by assumption. reflexivity.
  - apply clamp_proper. apply sum_ext. intros j Hj.
    rewrite !expand_index by assumption. reflexivity.
Qed.

(** C4.  Under the CLS variant the embedding of every sentence is the
    vector at the first token position of the final layer's hidden
    states, taken over unchanged. *)
Theorem pool_CLS_first_token (rest : list nat) :
  shape (last_hidden_state out) = B :: L :: rest -> 0 < L ->
  exists t, pool (Some CLS) out mask = Ok (Some t)
         /\ shape t = B :: rest
         /\ forall b ix, data t (b :: ix) = data (last_hidden_state out) (b :: 0 :: ix).
Proof.
  intros Hs HL. unfold pool, Torch.select_col. rewrite Hs.
  destruct (Nat.ltb_spec 0 L) as [_|Hge]; [|lia].
  eexists. split; [reflexivity|]. split; [reflexivity|].
  intros b ix. reflexivity.
Qed.

(** C3.  Under the FIRST_LAST_AVG variant the embedding is the
    element-wise average of two vectors: the mean over the sequence
    dimension of the first transformer layer ([hidden_states[1]]) and the
    mean over the sequence dimension of the last layer
    ([hidden_states[-1]]). *)
Theorem pool_FIRST_LAST_AVG_average (first last : tensor float) :
  Py.index (hidden_states out) 1 = Ok first ->
  Py.index (hidden_states out) (-1) = Ok last ->
  shape first = [B; L; H] -> shape last = [B; L; H] ->
  0 < L -> 0 < H ->
  exists t, pool (Some FIRST_LAST_AVG) out mask = Ok (Some t)
         /\ shape t = [B; H]
         /\ forall b h,
              data t [b; h] ≈
              Float.div (Float.add (seq_mean L first b h) (seq_mean L last b h))
                        (Float.of_nat 2).
Proof.
  intros Hf Hl Hsf Hsl HL HH. unfold pool. rewrite Hf, Hl. unfold bind at 1 2.
  destruct first as [sf df], last as [sl dl]. simpl in Hsf, Hsl. subst sf sl.
  step size_1.
  step transpose_1_2. step_by (avg_pool1d_full _ B H L) auto. step squeeze_last_1.
  step transpose_1_2. step_by (avg_pool1d_full _ B H L) auto. step squeeze_last_1.
  step unsqueeze_1_2. step unsqueeze_1_2.
  step cat_1_pair.
  step transpose_1_2. step_by (avg_pool1d_full _ B H 2) (auto; lia).
  step squeeze_last_1.
  eexists. split; [reflexivity|]. split; [reflexivity|].
  intros b h. simpl. apply div_proper; [|reflexivity].
  apply add_proper; [|reflexivity]. apply add_zero_l.
Qed.

(** In exact arithmetic, for every sentence whose attention mask is all
    ones, the MEAN variant returns what the LAST_AVG variant returns on the
    same hidden states. *)
Theorem pool_MEAN_all_ones_is_LAST_AVG :
  shape (last_hidden_state out) = [B; L; H] -> shape mask = [B; L] -> 0 < L -> 0 < H ->
  exists tm ta,
    pool (Some MEAN) out mask = Ok (Some tm)
    /\ pool (Some LAST_AVG) out mask = Ok (Some ta)
    /\ shape tm = shape ta
    /\ forall b, b < B ->
         (forall j, j < L -> data mask [b; j] = 1%Z) ->
         forall h, data tm [b; h] ≈ data ta [b; h].
Proof.
  intros Hs Hm HL HH.
  destruct (pool_MEAN_weighted Hs Hm) as (tm & Em & Sm & Dm).
  destruct (pool_LAST_AVG_mean Hs HL HH) as (ta & Ea & Sa & Da).
  exists tm, ta. repeat split; try assumption; [congruence|].
  intros b Hb Hones h. rewrite (Dm b h Hb), Da. unfold seq_mean.
  apply div_proper.
  - apply sum_ext. intros j Hj. rewrite (Hones j Hj). apply mul_one_r.
  - rewrite (sum_ones L) by (intros j Hj; rewrite (Hones j Hj); reflexivity).
    rewrite clamp_count by assumption. reflexivity.
Qed.

(** C10 (amended).  Under the MEAN variant a sentence whose attention
    mask is all zeros has its denominator replaced by the floor [1e-9];
    with finite hidden states pooling succeeds and the embedding of that
    sentence is the zero vector. *)
Theorem pool_MEAN_zero_mask_zero_vector :
  shape (last_hidden_state out) = [B; L; H] -> shape mask = [B; L] ->
  exists t, pool (Some MEAN) out mask = Ok (Some t)
         /\ shape t = [B; H]
         /\ forall b, b < B ->
              (forall j, j < L -> data mask [b; j] = 0%Z) ->
              (forall j h, j < L -> Float.is_finite (data (last_hidden_state out) [b; j; h]) = true) ->
              Float.clamp_min floor_1e9
                (Float.sum L (fun j => Float.of_Z (data mask [b; j]))) = floor_1e9
              /\ forall h, data t [b; h] ≈ Float.zero.
Proof.
  intros Hs Hm.
  destruct (pool_MEAN_weighted Hs Hm) as (t & Et & St & Dt).
  exists t. split; [assumption|]. split; [assumption|].
  intros b Hb Hzero Hfin.
  assert (Hcount : Float.sum L (fun j => Float.of_Z (data mask [b; j])) ≈ Float.zero).
  { apply sum_zeros. intros j Hj. rewrite (Hzero j Hj). reflexivity. }
  split.
  - apply clamp_zero. exact Hcount.
  - intros h. rewrite (Dt b h) by assumption.
    rewrite (clamp_zero _ Hcount).
    apply div_zero_floor. apply sum_zeros. intros j Hj.
    rewrite (Hzero j Hj). apply mul_zero_r. auto.
Qed.

(** C6 (amended).  A sentence with an all-zero attention mask is not
    rejected: under MEAN pooling returns an embedding for every sentence
    of the batch, and under every other variant the attention mask is
    not consulted at all. *)
Theorem pool_accepts_zero_mask :
  shape (last_hidden_state out) = [B; L; H] -> shape mask = [B; L] ->
  (exists b, b < B /\ forall j, j < L -> data mask [b; j] = 0%Z) ->
  (exists t, pool (Some MEAN) out mask = Ok (Some t) /\ shape t = [B; H])
  /\ forall et mask', et <> Some MEAN ->
       pool et out mask = pool et out mask'.
Proof.
  intros Hs Hm _. split.
  - destruct (pool_MEAN_weighted Hs Hm) as (t & Et & St & _). eauto.
  - intros [[]|] mask' Hne; try reflexivity. congruence.
Qed.

End Pooling.

(** ** Sorting and restoring the order *)

Section Gather.
Context {A : Type}.

Lemma gather_spec (xs : list A) (idxs : list nat) :
  Forall (fun i => i < length xs) idxs ->
  exists ys, gather xs idxs = Ok ys
          /\ length ys = length idxs
          /\ forall j i, idxs !! j = Some i -> ys !! j = xs !! i.
Proof.
  induction idxs as [|i idxs IH]; intros Hall.
  - exists []. repeat split; auto. intros j i Hj. discriminate.
  - inversion Hall as [|? ? Hi Hrest]; subst.
    destruct (IH Hrest) as (ys & Hg & Hlen & Hnth).
    destruct (lookup_lt_is_Some_2 xs i Hi) as [x Hx].
    exists (x :: ys). simpl. rewrite Hx, Hg. simpl.
    repeat split; [congruence|].
    intros [|j] i' Hj; simpl in *.
    + congruence.
    + auto.
Qed.
End Gather.

Lemma Sorted_le_seq (start n : nat) : Sorted le (seq start n).
Proof.
  revert start. induction n as [|n IH]; intros start; simpl.
  - constructor.
  - constructor; [apply IH|]. destruct n; simpl; constructor. lia.
Qed.

Lemma Sorted_of_nat (l : list nat) :
  Sorted Z.le (map Z.of_nat l) -> Sorted le l.
Proof.
  induction l as [|a l IH]; intros H; [constructor|].
  simpl in H. inversion H as [|? ? Hs Hhd]; subst.
  constructor; [auto|].
  destruct l as [|b l]; simpl in *; constructor.
  inversion Hhd; subst. lia.
Qed.

Lemma map_nth_seq (l : list nat) :
  map (fun j => nth j l 0) (seq 0 (length l)) = l.
Proof.
  apply list_eq. intros i. rewrite list_lookup_fmap.
  destruct (decide (i < length l)) as [Hi|Hi].
  - rewrite lookup_seq_lt by exact Hi. simpl.
    destruct (lookup_lt_is_Some_2 l i Hi) as [x Hx]. rewrite Hx.
    f_equal. apply nth_lookup_Some with (d := 0) in Hx. exact Hx.
  - rewrite lookup_seq_ge by lia. simpl. symmetry. apply lookup_ge_None. lia.
Qed.

(** The argsort of a permutation of [0 .. n-1] is its inverse. *)
Lemma argsort_inverse (idx inv : list nat) (n : nat) :
  idx ≡ₚ seq 0 n ->
  is_argsort (map Z.of_nat idx) inv ->
  forall i, i < n -> exists j, inv !! i = Some j /\ idx !! j = Some i.
Proof.
  intros Hidx [Hperm Hsorted] i Hi.
  assert (Hlen : length idx = n).
  { rewrite (Permutation_length Hidx). apply length_seq. }
  rewrite length_map, Hlen in Hperm.
  assert (Hkeys : map (fun j => nth j (map Z.of_nat idx) 0%Z) inv
                  = map Z.of_nat (map (fun j => nth j idx 0) inv)).
  { rewrite map_map. apply map_ext. intros j.
    change 0%Z with (Z.of_nat 0). apply map_nth. }
  rewrite Hkeys in Hsorted. apply Sorted_of_nat in Hsorted.
  assert (Heq : map (fun j => nth j idx 0) inv = seq 0 n).
  { apply (Sorted_unique le); [exact Hsorted|apply Sorted_le_seq|].
    rewrite Hperm. rewrite <- Hlen at 1. rewrite map_nth_seq. exact Hidx. }
  assert (Hleninv : length inv = n).
  { rewrite (Permutation_length Hperm). apply length_seq. }
  destruct (lookup_lt_is_Some_2 inv i) as [j Hj]; [lia|].
  exists j. split; [exact Hj|].
  assert (Hjn : j < n).
  { assert (Hin : j ∈ seq 0 n).
    { rewrite <- Hperm. apply list_elem_of_lookup. eauto. }
    apply elem_of_seq in Hin. lia. }
  assert (Hnth : map (fun j => nth j idx 0) inv !! i = Some (nth j idx 0)).
  { change (map (fun j => nth j idx 0) inv) with ((fun j => nth j idx 0) <$> inv).
    rewrite list_lookup_fmap, Hj. reflexivity. }
  rewrite Heq, lookup_seq_lt in Hnth by exact Hi. simpl in Hnth.
  destruct (lookup_lt_is_Some_2 idx j) as [i' Hi']; [lia|].
  rewrite Hi'. f_equal.
  apply nth_lookup_Some with (d := 0) in Hi'. congruence.
Qed.

(** ** The batch loop of [encode] *)

Section EncodeSpec.
Context {ModelArch : Type}.
Variable argsort : list Z -> list nat.
Hypothesis argsort_ok : forall keys, is_argsort keys (argsort keys).
Variable self : @BaseModel ModelArch.
Variable sentences : list string.
Variable batch_size : Z.
Variable sh : list nat.
Hypothesis batch_size_pos : (0 < batch_size)%Z.
Hypothesis embeds : embeds_batches self sentences sh.

Lemma encode_loop (sorted : list string) :
  sorted ⊆ sentences ->
  forall fuel start acc,
    length sorted - start <= fuel ->
    length acc = start `min` length sorted ->
    aligned self sentences sh sorted acc ->
    exists all,
      for_each (Py.range_from fuel start (length sorted) (Z.to_nat batch_size))
        (fun all_embeddings start_index =>
           try! embeddings :=
             encode_batch self
               (Py.slice sorted start_index (start_index + Z.to_nat batch_size)) in
           Ok (all_embeddings ++ embeddings))
        acc = Ok all
      /\ length all = length sorted
      /\ aligned self sentences sh sorted all.
Proof.
  intros Hsub. set (n := length sorted). set (b := Z.to_nat batch_size).
  assert (Hb : 0 < b) by (unfold b; lia).
  induction fuel as [|fuel IH]; intros start acc Hfuel Hlen Hal.
  - simpl. exists acc. repeat split; try apply Hal. lia.
  - simpl. destruct (Nat.ltb_spec start n) as [Hlt|Hge].
    + simpl.
      set (batch := Py.slice sorted start (start + b)).
      assert (Hbl : length batch = b `min` (n - start)).
      { unfold batch, Py.slice. rewrite length_take, length_drop.
        replace (start + b - start) with b by lia. reflexivity. }
      assert (Hbsub : batch ⊆ sentences).
      { intros s Hs. apply Hsub. unfold batch, Py.slice in Hs.
        apply elem_of_take in Hs as (i & Hs & _).
        rewrite lookup_drop in Hs. apply list_elem_of_lookup. eauto. }
      destruct (embeds batch) as (rows & Hrows & Hrl & Hrsh); [|exact Hbsub|].
      { intros Hnil. rewrite Hnil in Hbl. simpl in Hbl. lia. }
      rewrite Hrows. simpl.
      apply IH.
      * lia.
      * rewrite length_app, Hlen, Hrl, Hbl. lia.
      * destruct Hal as [Hsh Hal]. split.
        { apply Forall_app. split; assumption. }
        intros j e Hj.
        apply lookup_app_Some in Hj as [Hj|[Hjge Hj]].
        { apply Hal. exact Hj. }
        rewrite Hlen in Hjge, Hj.
        replace (start `min` n) with start in * by lia.
        assert (Hr : j - start < length batch).
        { rewrite <- Hrl. apply lookup_lt_Some in Hj. exact Hj. }
        destruct (lookup_lt_is_Some_2 batch (j - start) Hr) as [s Hs].
        exists s. split.
        { unfold batch, Py.slice in Hs. rewrite lookup_take_Some in Hs.
          destruct Hs as [Hs _]. rewrite lookup_drop in Hs.
          replace (start + (j - start)) with j in Hs by lia. exact Hs. }
        exists batch, rows, (j - start). auto.
    + simpl. exists acc. repeat split; try apply Hal. lia.
Qed.

Lemma uniform_same (ts : list (tensor float)) :
  Forall (fun e => shape e = sh) ts -> uniform ts = true.
Proof.
  intros H. destruct ts as [|t ts]; [reflexivity|].
  apply Forall_cons in H as [Ht Hts]. simpl.
  apply forallb_forall. intros t' Hin.
  apply bool_decide_eq_true_2.
  rewrite Forall_forall in Hts. rewrite Ht. apply Hts.
  apply list_elem_of_In. exact Hin.
Qed.

(** [encode] on a list: every stage returns, and position [i] of the
    result holds an embedding of sentence [i]. *)
Lemma encode_many_spec (convert_to_numpy convert_to_tensor : bool) :
  (convert_to_tensor = true -> sentences <> []) ->
  exists out,
    encode argsort self (Many sentences) batch_size
           convert_to_numpy convert_to_tensor
    = Ok (Embeddings (container_of convert_to_numpy convert_to_tensor) out)
    /\ length out = length sentences
    /\ forall i s, sentences !! i = Some s ->
         exists e, out !! i = Some e /\ embedding_of self sentences s e.
Proof.
  intros Hne. unfold encode.
  set (keys := map (fun s => (- Z.of_nat (String.length s))%Z) sentences).
  set (idx := argsort keys).
  set (n := length sentences).
  destruct (argsort_ok keys) as [Hperm _]. fold idx in Hperm.
  assert (Hkl : length keys = n) by (unfold keys; apply length_map).
  rewrite Hkl in Hperm.
  assert (Hidxlen : length idx = n).
  { rewrite (Permutation_length Hperm). apply length_seq. }
  (* the sorted copy *)
  destruct (gather_spec sentences idx) as (sorted & Hg & Hsl & Hsn).
  { rewrite Hperm. apply Forall_seq. intros; fold n; lia. }
  rewrite Hg. simpl bind.
  assert (Hsub : sorted ⊆ sentences).
  { intros s Hs. apply list_elem_of_lookup in Hs as [j Hj].
    destruct (lookup_lt_is_Some_2 idx j) as [i Hi].
    { rewrite <- Hsl. eapply lookup_lt_Some; eauto. }
    rewrite (Hsn j i Hi) in Hj. apply list_elem_of_lookup. eauto. }
  (* the batches *)
  unfold Py.range.
  destruct (Z.eqb_spec batch_size 0) as [?|_]; [lia|].
  destruct (Z.ltb_spec batch_size 0) as [?|_]; [lia|].
  simpl bind.
  assert (Hn : n = length sorted) by lia.
  rewrite Hn.
  destruct (encode_loop sorted Hsub (length sorted) 0 [])
    as (all & Hloop & Hall & Hshape & Halign).
  { lia. }
  { reflexivity. }
  { split; [constructor|]. intros j e Hj. discriminate. }
  rewrite Hloop. simpl bind.
  (* back to the order of the input *)
  set (inv := argsort (map Z.of_nat idx)).
  destruct (argsort_ok (map Z.of_nat idx)) as [Hpinv Hsinv]. fold inv in Hpinv.
  rewrite length_map, Hidxlen in Hpinv.
  destruct (gather_spec all inv) as (out & Hgo & Hol & Hon).
  { rewrite Hpinv. apply Forall_seq. intros; lia. }
  rewrite Hgo. simpl bind.
  assert (Hout : length out = n).
  { rewrite Hol, (Permutation_length Hpinv). apply length_seq. }
  assert (Hpos : forall i s, sentences !! i = Some s ->
                   exists e, out !! i = Some e /\ embedding_of self sentences s e).
  { intros i s Hi.
    assert (Hin : i < n) by (eapply lookup_lt_Some; eauto).
    destruct (argsort_inverse idx inv n Hperm (argsort_ok _) i Hin)
      as (j & Hj & Hji).
    assert (Hjn : j < length all).
    { rewrite Hall, Hsl. eapply lookup_lt_Some; eauto. }
    destruct (lookup_lt_is_Some_2 all j Hjn) as [e He].
    exists e. split.
    - rewrite (Hon i j Hj). exact He.
    - destruct (Halign j e He) as (s' & Hs' & Hemb).
      rewrite (Hsn j i Hji), Hi in Hs'. congruence. }
  assert (Huni : uniform out = true).
  { apply uniform_same. apply Forall_forall. intros e He.
    apply list_elem_of_lookup in He as [i He].
    destruct (lookup_lt_is_Some_2 inv i) as [j Hj].
    { rewrite <- Hol. eapply lookup_lt_Some; eauto. }
    rewrite (Hon i j Hj) in He.
    rewrite Forall_forall in Hshape. apply Hshape.
    apply list_elem_of_lookup. eauto. }
  unfold container_of, torch_stack, np_asarray. rewrite Huni.
  exists out. split; [|split; [congruence|exact Hpos]].
  destruct convert_to_tensor.
  - destruct out as [|e out'].
    + exfalso. apply Hne; [reflexivity|].
      apply length_zero_iff_nil. simpl in Hout. fold n. lia.
    + reflexivity.
  - destruct convert_to_numpy; reflexivity.
Qed.

(** C1.  [encode] on a list of sentences returns as many embeddings as
    there are sentences, and the embedding at position [i] is the one the
    encoder computed for sentence [i]: the second [argsort] is the
    inverse of the length-sort permutation and undoes the reordering. *)
Theorem encode_restores_order (convert_to_numpy convert_to_tensor : bool) :
  (convert_to_tensor = true -> sentences <> []) ->
  exists out,
    encode argsort self (Many sentences) batch_size
           convert_to_numpy convert_to_tensor
    = Ok (Embeddings (container_of convert_to_numpy convert_to_tensor) out)
    /\ length out = length sentences
    /\ (forall i s, sentences !! i = Some s ->
          exists e, out !! i = Some e /\ embedding_of self sentences s e)
    /\ (let length_sorted_idx :=
           argsort (map (fun s => (- Z.of_nat (String.length s))%Z) sentences) in
         forall i, i < length sentences ->
           exists j, argsort (map Z.of_nat length_sorted_idx) !! i = Some j
                  /\ length_sorted_idx !! j = Some i).
Proof.
  intros Hne.
  destruct (encode_many_spec convert_to_numpy convert_to_tensor Hne)
    as (out & Henc & Hlen & Hpos).
  exists out. repeat split; try assumption.
  intros idx i Hi. apply (argsort_inverse idx _ (length sentences)); auto.
  destruct (argsort_ok (map (fun s => (- Z.of_nat (String.length s))%Z) sentences))
    as [Hperm _].
  rewrite length_map in Hperm. exact Hperm.
Qed.

End EncodeSpec.

Section EncodeInputs.
Context {ModelArch : Type}.
Variable argsort : list Z -> list nat.
Variable self : @BaseModel ModelArch.
Variable batch_size : Z.
Variables convert_to_numpy convert_to_tensor : bool.

(** A single string is encoded as the list of that string, and the first
    element of the result is returned. *)
Lemma encode_single (s : string) :
  encode argsort self (Single s) batch_size convert_to_numpy convert_to_tensor
  = (try! all_embeddings :=
       encode argsort self (Many [s]) batch_size
              convert_to_numpy convert_to_tensor in
     first_of all_embeddings).
Proof.
  unfold encode.
  destruct (gather [s] _) as [sorted|]; [|reflexivity]. simpl bind.
  destruct (Py.range _ _) as [starts|]; [|reflexivity]. simpl bind.
  destruct (for_each _ _ _) as [all|]; [|reflexivity]. simpl bind.
  destruct (gather all _) as [out|]; [|reflexivity]. simpl bind.
  destruct (if convert_to_tensor then _ else _); reflexivity.
Qed.

(** C5.  A single string gives one embedding, not wrapped in a
    sequence; a list of sentences gives a sequence of the same length
    whose [i]-th element is an embedding of sentence [i]. *)
Theorem encode_single_or_list (s : string) (sentences : list string)
    (sh : list nat) :
  (forall keys, is_argsort keys (argsort keys)) ->
  (0 < batch_size)%Z ->
  embeds_batches self [s] sh ->
  embeds_batches self sentences sh ->
  (convert_to_tensor = true -> sentences <> []) ->
  (exists e,
     encode argsort self (Single s) batch_size
            convert_to_numpy convert_to_tensor = Ok (Embedding e)
     /\ embedding_of self [s] s e)
  /\ (exists out,
        encode argsort self (Many sentences) batch_size
               convert_to_numpy convert_to_tensor
        = Ok (Embeddings (container_of convert_to_numpy convert_to_tensor) out)
        /\ length out = length sentences
        /\ forall i s', sentences !! i = Some s' ->
             exists e, out !! i = Some e /\ embedding_of self sentences s' e).
Proof.
  intros Hargsort Hbs Hone Hmany Hne. split.
  - destruct (encode_many_spec argsort Hargsort self [s] batch_size sh Hbs Hone
                convert_to_numpy convert_to_tensor)
      as (out & Henc & Hlen & Hpos); [discriminate|].
    destruct (Hpos 0 s eq_refl) as (e & He & Hemb).
    exists e. split; [|exact Hemb].
    rewrite encode_single, Henc. simpl.
    destruct out as [|e' out']; [discriminate|].
    simpl in He. congruence.
  - apply (encode_many_spec argsort Hargsort self sentences batch_size sh Hbs Hmany).
    exact Hne.
Qed.

(** C7 (amended).  On the empty list [encode] calls neither the
    tokenizer nor the encoder.  It returns the empty list or array; only
    when a stacked tensor is asked for does it fail, with the
    [RuntimeError] of [torch.stack]. *)
Theorem encode_empty :
  is_argsort [] (argsort []) ->
  batch_size <> 0%Z ->
  encode argsort self (Many []) batch_size convert_to_numpy false
  = Ok (Embeddings (container_of convert_to_numpy false) [])
  /\ encode argsort self (Many []) batch_size convert_to_numpy true
     = Raise RuntimeError.
Proof.
  intros [Hperm _] Hbs. simpl in Hperm.
  apply Permutation_nil_r in Hperm.
  unfold encode. simpl map. rewrite Hperm. simpl gather. simpl bind.
  unfold Py.range. destruct (Z.eqb_spec batch_size 0) as [?|_]; [contradiction|].
  destruct (batch_size <? 0)%Z; simpl; rewrite Hperm; simpl;
    destruct convert_to_numpy; auto.
Qed.

End EncodeInputs.

(** X11.  An encoder that embeds every sentence on its own, whatever batch
    it is in, makes [encode] the map of that embedding over the input:
    the result depends neither on the batch size nor on how [argsort]
    orders sentences of equal length. *)
Corollary encode_sentencewise {ModelArch : Type} (argsort : list Z -> list nat)
    (self : @BaseModel ModelArch) (sentences : list string) (batch_size : Z)
    (sh : list nat) (f : string -> tensor float)
    (convert_to_numpy convert_to_tensor : bool) :
  (forall keys, is_argsort keys (argsort keys)) ->
  (0 < batch_size)%Z ->
  (forall s, s ∈ sentences -> shape (f s) = sh) ->
  (forall batch, batch <> [] -> batch ⊆ sentences ->
     encode_batch self batch = Ok (map f batch)) ->
  (convert_to_tensor = true -> sentences <> []) ->
  encode argsort self (Many sentences) batch_size convert_to_numpy convert_to_tensor
  = Ok (Embeddings (container_of convert_to_numpy convert_to_tensor)
                   (map f sentences)).
Proof.
  intros Hargsort Hbs Hshape Hf Hne.
  assert (Hembeds : embeds_batches self sentences sh).
  { intros batch Hnil Hsub. exists (map f batch).
    split; [auto|]. split; [apply length_map|].
    apply Forall_forall. intros r Hr. apply list_elem_of_In in Hr.
    apply in_map_iff in Hr as (s & <- & Hs).
    apply Hshape, Hsub, list_elem_of_In, Hs. }
  destruct (encode_many_spec argsort Hargsort self sentences batch_size sh Hbs
              Hembeds convert_to_numpy convert_to_tensor Hne)
    as (out & Henc & Hlen & Hpos).
  rewrite Henc. do 2 f_equal.
  apply list_eq. intros i.
  change (map f sentences) with (f <$> sentences). rewrite list_lookup_fmap.
  destruct (sentences !! i) as [s|] eqn:Hi; simpl.
  - destruct (Hpos i s Hi) as (e & He & batch & rows & r & Hsub & Hrows & Hb & Hr).
    rewrite He. f_equal.
    rewrite Hf in Hrows; [|intros ->; discriminate|exact Hsub].
    injection Hrows as <-.
    change (map f batch) with (f <$> batch) in Hr.
    rewrite list_lookup_fmap, Hb in Hr. simpl in Hr. congruence.
  - apply lookup_ge_None. rewrite Hlen. apply lookup_ge_None. exact Hi.
Qed.

(** ** The stable argsort is an argsort *)

Global Instance key_le_total : Total key_le.
Proof. intros [k1 i1] [k2 i2]. unfold key_le. simpl. lia. Qed.

Lemma zip_seq_nth (keys : list Z) (p : Z * nat) :
  p ∈ zip keys (seq 0 (length keys)) -> nth p.2 keys 0%Z = p.1.
Proof.
  intros Hin. apply list_elem_of_lookup in Hin as [i Hi].
  apply lookup_zip_with_Some in Hi as (k & j & -> & Hk & Hj).
  apply lookup_seq in Hj as [-> _]. simpl.
  apply nth_lookup_Some with (d := 0%Z) in Hk. exact Hk.
Qed.

Lemma argsort_stable_ok (keys : list Z) : is_argsort keys (argsort_stable keys).
Proof.
  unfold is_argsort, argsort_stable.
  set (pairs := zip keys (seq 0 (length keys))).
  assert (Hperm : merge_sort key_le pairs ≡ₚ pairs) by apply merge_sort_Permutation.
  split.
  - change (map snd (merge_sort key_le pairs)) with ((merge_sort key_le pairs).*2).
    rewrite Hperm. unfold pairs. rewrite snd_zip; [reflexivity|].
    rewrite length_seq. lia.
  - rewrite map_map.
    rewrite (map_ext_in _ fst).
    + apply (Sorted_fmap fst key_le Z.le).
      { intros x y [Hlt|[Heq _]]; lia. }
      apply Sorted_merge_sort. apply _.
    + intros p Hp. apply zip_seq_nth.
      change (p ∈ pairs). rewrite <- Hperm. apply list_elem_of_In. exact Hp.
Qed.

(** ** The example encoder *)

Lemma example_embeds (sentences : list string) :
  embeds_batches (example_model (Some CLS)) sentences [2].
Proof.
  intros batch _ _. eexists. split; [reflexivity|]. split.
  - rewrite length_map, length_seq. reflexivity.
  - apply Forall_forall. intros r Hr. apply list_elem_of_In in Hr.
    apply in_map_iff in Hr as (i & <- & _). reflexivity.
Qed.

(** ** Witnesses for [encode] *)

Lemma encode_restores_order_witness :
  exists out,
    encode argsort_stable (example_model (Some CLS))
      (Many ["A very long sentence repeated many times to exceed batch sort order";
             "hi"]) 1 true false
    = Ok (Embeddings NdArray out)
    /\ length out = 2.
Proof.
  destruct (encode_restores_order argsort_stable argsort_stable_ok
              (example_model (Some CLS))
              ["A very long sentence repeated many times to exceed batch sort order";
               "hi"] 1 [2] ltac:(lia) (example_embeds _) true false)
    as (out & Henc & Hlen & _); [discriminate|].
  exists out. split; [exact Henc|exact Hlen].
Defined.

Lemma encode_single_or_list_witness :
  (exists e, encode argsort_stable (example_model (Some CLS)) (Single "hi") 64
                    true false = Ok (Embedding e))
  /\ (exists out, encode argsort_stable (example_model (Some CLS))
                         (Many ["hi"; "hello"; "hey"]) 2 true false
                  = Ok (Embeddings NdArray out)
                  /\ length out = 3).
Proof.
  destruct (encode_single_or_list argsort_stable (example_model (Some CLS)) 64
              true false "hi" ["hi"] [2]
              argsort_stable_ok ltac:(lia) (example_embeds _) (example_embeds _))
    as [(e & He & _) _]; [discriminate|].
  destruct (encode_single_or_list argsort_stable (example_model (Some CLS)) 2
              true false "hi" ["hi"; "hello"; "hey"] [2]
              argsort_stable_ok ltac:(lia) (example_embeds _) (example_embeds _))
    as [_ (out & Ho & Hl & _)]; [discriminate|].
  split; [exists e; exact He|exists out; split; [exact Ho|exact Hl]].
Defined.

Lemma encode_empty_witness :
  encode argsort_stable (example_model (Some MEAN)) (Many []) 64 true false
  = Ok (Embeddings NdArray [])
  /\ encode argsort_stable (example_model (Some MEAN)) (Many []) 64 true true
     = Raise RuntimeError.
Proof.
  apply (encode_empty argsort_stable (example_model (Some MEAN)) 64 true).
  - apply argsort_stable_ok.
  - lia.
Defined.

(** C7 (counterexample).  With the default arguments the empty list is
    encoded without any error. *)
Lemma empty_input_is_encoded :
  encode argsort_stable (example_model (Some MEAN)) (Many []) 64 true false
  = Ok (Embeddings NdArray []).
Proof. reflexivity. Qed.

(** ** Witnesses and examples for pooling *)

Lemma pool_CLS_first_token_witness :
  exists t, pool (Some CLS) example_output ones_mask = Ok (Some t)
         /\ data t [1; 0] = Finite 9 /\ data t [1; 1] = Finite 10.
Proof.
  destruct (pool_CLS_first_token example_output ones_mask 2 2 [2])
    as (t & Ht & _ & Hd); [reflexivity|lia|].
  exists t. split; [exact Ht|]. split; apply Hd.
Defined.

Lemma pool_FIRST_LAST_AVG_average_witness :
  exists t, pool (Some FIRST_LAST_AVG) example_output ones_mask = Ok (Some t)
         /\ data t [0; 0] ≈ Finite 4 /\ data t [0; 1] ≈ Finite 5.
Proof.
  destruct (pool_FIRST_LAST_AVG_average example_output ones_mask 2 2 2
              example_first example_last)
    as (t & Ht & _ & Hd); [reflexivity|reflexivity|reflexivity|reflexivity|lia|lia|].
  exists t. split; [exact Ht|].
  split; (etransitivity; [apply Hd|reflexivity]).
Defined.

Lemma pool_MEAN_all_ones_is_LAST_AVG_witness :
  exists tm ta,
    pool (Some MEAN) example_output ones_mask = Ok (Some tm)
    /\ pool (Some LAST_AVG) example_output ones_mask = Ok (Some ta)
    /\ data tm [1; 0] ≈ data ta [1; 0].
Proof.
  destruct (pool_MEAN_all_ones_is_LAST_AVG example_output ones_mask 2 2 2)
    as (tm & ta & Hm & Ha & _ & Heq); [reflexivity|reflexivity|lia|lia|].
  exists tm, ta. split; [exact Hm|]. split; [exact Ha|].
  apply Heq; [lia|]. intros [|[|j]] Hj; [reflexivity|reflexivity|lia].
Defined.

Lemma pool_MEAN_zero_mask_zero_vector_witness :
  exists t, pool (Some MEAN) example_output zero_mask = Ok (Some t)
         /\ data t [1; 0] ≈ Float.zero /\ data t [1; 1] ≈ Float.zero.
Proof.
  destruct (pool_MEAN_zero_mask_zero_vector example_output zero_mask 2 2 2)
    as (t & Ht & _ & Hz); [reflexivity|reflexivity|].
  exists t. split; [exact Ht|].
  destruct (Hz 1) as [_ Hd].
  - lia.
  - intros [|[|j]] Hj; [reflexivity|reflexivity|lia].
  - intros [|[|j]] [|[|[|h]]] Hj; try reflexivity; lia.
  - split; apply Hd.
Defined.

Lemma pool_accepts_zero_mask_witness :
  (exists t, pool (Some MEAN) example_output zero_mask = Ok (Some t)
          /\ shape t = [2; 2])
  /\ pool (Some LAST_AVG) example_output zero_mask
     = pool (Some LAST_AVG) example_output ones_mask.
Proof.
  destruct (pool_accepts_zero_mask example_output zero_mask 2 2 2)
    as [Hmean Hrest]; [reflexivity|reflexivity| |].
  - exists 1. split; [lia|]. intros [|[|j]] Hj; [reflexivity|reflexivity|lia].
  - split; [exact Hmean|]. apply Hrest. discriminate.
Defined.

(** C6 (counterexample).  The second sentence of the batch has an all-zero
    attention mask, and pooling returns an embedding under each of the five
    variants. *)
Lemma pool_zero_mask_returns :
  (forall j, j < 2 -> data zero_mask [1; j] = 0%Z)
  /\ forall et, exists t, pool (Some et) example_output zero_mask = Ok (Some t).
Proof.
  split.
  - intros [|[|j]] Hj; [reflexivity|reflexivity|lia].
  - intros []; eexists; reflexivity.
Qed.

(** What the five variants return on the example. *)
Example pool_MEAN_example :
  match pool (Some MEAN) example_output zero_mask with
  | Ok (Some t) => to_list2 t
  | _ => []
  end = [floats [12 # 2; 14 # 2]%Q; floats [0; 0]%Q].
Proof. vm_compute. reflexivity. Qed.

Example pool_LAST_AVG_example :
  match pool (Some LAST_AVG) example_output zero_mask with
  | Ok (Some t) => to_list2 t
  | _ => []
  end = [floats [12 # 2; 14 # 2]%Q; floats [20 # 2; 22 # 2]%Q].
Proof. vm_compute. reflexivity. Qed.

(** ** The constructor *)

Section Constructor.
Context {ModelArch : Type}.
Variable ModelArch_from_string : string -> res ModelArch.
Variable EncoderType_from_string : string -> res EncoderType.
Variable default_device : string.

(** C9.  The constructor accepts [encoder_type=None]; the model it
    builds has no encoder type, and [get_sentence_embeddings] then
    returns [None] whenever the transformer call itself returns. *)
Theorem no_encoder_type_no_embedding (model_arch : arg ModelArch)
    (arch : ModelArch) (model_name_or_path : option string)
    (num_classes max_seq_length : Z) (device : option string)
    (model : transformer) (tokenizer : tokenizer_fn) :
  resolve ModelArch_from_string model_arch = Ok (Some arch) ->
  exists self,
    BaseModel_init ModelArch_from_string EncoderType_from_string default_device
      model_arch model_name_or_path num_classes max_seq_length
      ArgNone device model tokenizer = Ok self
    /\ encoder_type self = None
    /\ forall input_ids attention_mask token_type_ids out,
         model input_ids attention_mask token_type_ids = Ok out ->
         get_sentence_embeddings self input_ids attention_mask token_type_ids
         = Ok None.
Proof.
  intros Harch. unfold BaseModel_init. rewrite Harch. simpl.
  eexists. split; [reflexivity|]. split; [reflexivity|].
  intros ids m tt out Hout. unfold get_sentence_embeddings. simpl.
  rewrite Hout. reflexivity.
Qed.

End Constructor.

Lemma no_encoder_type_no_embedding_witness :
  exists self : @BaseModel unit,
    BaseModel_init (fun _ => Ok tt) (fun _ => Raise ValueError) "cpu"
      (ArgStr "cosent") (Some "bert-base") 2 128 ArgNone None
      example_transformer example_tokenizer = Ok self
    /\ encoder_type self = None.
Proof.
  destruct (no_encoder_type_no_embedding (fun _ => Ok tt)
              (fun _ => Raise ValueError) "cpu" (ArgStr "cosent") tt
              (Some "bert-base") 2 128 None example_transformer example_tokenizer)
    as (self & Hinit & Hnone & _); [reflexivity|].
  exists self. split; [exact Hinit|exact Hnone].
Defined.

(** ** The result report *)

Section Evaluate.
Context {ModelArch : Type}.
Variable cosine_similarity : tensor float -> tensor float -> res (list float).
Variable compute_spearmanr : list float -> list float -> res float.
Variable compute_pearsonr : list float -> list float -> res float.
Variable str : float -> string.

Lemma evaluate_keys (spearman pearson : float) :
  sorted_keys (<["eval_pearson" := pearson]> (<["eval_spearman" := spearman]> ∅))
  = ["eval_pearson"; "eval_spearman"].
Proof. vm_compute. reflexivity. Qed.

(** The keys of a report come in lexicographic order, one line each. *)
Lemma sorted_keys_spec (results : gmap string float) :
  Sorted String.le (sorted_keys results)
  /\ sorted_keys results ≡ₚ map fst (map_to_list results)
  /\ NoDup (sorted_keys results).
Proof.
  unfold sorted_keys. split; [|split].
  - apply Sorted_merge_sort. apply _.
  - apply merge_sort_Permutation.
  - rewrite merge_sort_Permutation. apply NoDup_fst_map_to_list.
Qed.

(** C8.  When the evaluation loop and the two correlation helpers
    return, [evaluate] returns the two coefficients under the keys
    [eval_pearson] and [eval_spearman] and no other key; with an output
    directory it writes [eval_results.txt] with one [key = value] line per
    key, the keys in lexicographic order. *)
Theorem evaluate_results (self : @BaseModel ModelArch)
    (eval_dataloader : list eval_batch) (output_dir : option string)
    (batch_labels batch_preds : list float) (spearman pearson : float) :
  for_each eval_dataloader (evaluate_batch cosine_similarity self) ([], [])
    = Ok (batch_labels, batch_preds) ->
  compute_spearmanr batch_labels batch_preds = Ok spearman ->
  compute_pearsonr batch_labels batch_preds = Ok pearson ->
  exists results written,
    evaluate cosine_similarity compute_spearmanr compute_pearsonr str
             self eval_dataloader output_dir = Ok (results, written)
    /\ results !! "eval_pearson" = Some pearson
    /\ results !! "eval_spearman" = Some spearman
    /\ (forall key, is_Some (results !! key) ->
           key = "eval_pearson" \/ key = "eval_spearman")
    /\ sorted_keys results = ["eval_pearson"; "eval_spearman"]
    /\ report str results
       = ("eval_pearson = " +:+ str pearson +:+ newline)
         +:+ ("eval_spearman = " +:+ str spearman +:+ newline)
    /\ written
       = match output_dir with
         | Some (String c dir) =>
             [FileWrite (Py.path_join (String c dir) "eval_results.txt")
                        (report str results)]
         | _ => []
         end.
Proof.
  intros Hloop Hs Hp. unfold evaluate. rewrite Hloop. simpl bind.
  rewrite Hs, Hp. simpl bind.
  set (results := <["eval_pearson" := pearson]> (<["eval_spearman" := spearman]> ∅)).
  exists results. eexists. split; [reflexivity|].
  assert (Hpe : results !! "eval_pearson" = Some pearson).
  { unfold results. apply lookup_insert_eq. }
  assert (Hsp : results !! "eval_spearman" = Some spearman).
  { unfold results. rewrite lookup_insert_ne by discriminate.
    apply lookup_insert_eq. }
  split; [exact Hpe|]. split; [exact Hsp|]. split; [|split; [|split]].
  - intros key [v Hv]. unfold results in Hv.
    destruct (decide (key = "eval_pearson")) as [|Hne1]; [auto|].
    destruct (decide (key = "eval_spearman")) as [|Hne2]; [auto|].
    rewrite !lookup_insert_ne in Hv by congruence.
    rewrite lookup_empty in Hv. discriminate.
  - apply evaluate_keys.
  - unfold report. unfold results at 2. rewrite evaluate_keys.
    unfold report_line. simpl map. rewrite Hpe, Hsp. reflexivity.
  - destruct output_dir as [[|c dir]|]; reflexivity.
Qed.

End Evaluate.

Lemma evaluate_results_witness :
  exists results written,
    evaluate example_cosine example_correlation example_correlation example_str
             (example_model (Some CLS)) [example_batch] (Some "out")
    = Ok (results, written)
    /\ written = [FileWrite "out/eval_results.txt" (report example_str results)]
    /\ report example_str results
       = ("eval_pearson = 4.0" +:+ newline) +:+ ("eval_spearman = 4.0" +:+ newline).
Proof.
  destruct (evaluate_results example_cosine example_correlation example_correlation
              example_str (example_model (Some CLS)) [example_batch] (Some "out")
              (floats [5; 4]%Q) [Finite 1; Finite 1] (Finite 4) (Finite 4))
    as (results & written & Hev & _ & _ & _ & _ & Hrep & Hw);
    [reflexivity|reflexivity|reflexivity|].
  exists results, written. split; [exact Hev|]. split; [exact Hw|exact Hrep].
Defined.

(** * Further properties *)

(** ** Loops that collect results *)

Lemma for_each_append {A B : Type} (g : A -> res (list B)) (xs : list A)
    (acc : list B) :
  for_each xs (fun all x => try! e := g x in Ok (all ++ e)) acc
  = (try! rs := map_res g xs in Ok (acc ++ concat rs)).
Proof.
  revert acc. induction xs as [|x xs IH]; intros acc; simpl.
  - rewrite app_nil_r. reflexivity.
  - destruct (g x) as [e|err]; simpl; [|reflexivity].
    rewrite IH. destruct (map_res g xs) as [rs|err]; simpl; [|reflexivity].
    rewrite app_assoc. reflexivity.
Qed.

Lemma map_res_map {A B C : Type} (g : B -> res C) (h : A -> B) (xs : list A) :
  map_res g (map h xs) = map_res (fun x => g (h x)) xs.
Proof.
  induction xs as [|x xs IH]; simpl; [reflexivity|].
  rewrite IH. reflexivity.
Qed.

(** The first element on which [f] raises decides the outcome. *)
Lemma map_res_first_failure {A B : Type} (f : A -> res B) (xs : list A)
    (k : nat) (x : A) (e : exn) :
  (forall j y, j < k -> xs !! j = Some y -> exists b, f y = Ok b) ->
  xs !! k = Some x -> f x = Raise e ->
  map_res f xs = Raise e.
Proof.
  revert k. induction xs as [|y xs IH]; intros k Hbefore Hk Hx.
  - discriminate.
  - destruct k as [|k]; simpl in *.
    + injection Hk as ->. rewrite Hx. reflexivity.
    + destruct (Hbefore 0 y) as [b Hb]; [lia|reflexivity|].
      rewrite Hb. simpl.
      rewrite (IH k); [reflexivity| |exact Hk|exact Hx].
      intros j z Hj Hz. apply (Hbefore (S j) z); [lia|exact Hz].
Qed.

Lemma map_res_ok {A B : Type} (f : A -> res B) (xs : list A) (ys : list B) :
  map_res f xs = Ok ys -> Forall2 (fun x y => f x = Ok y) xs ys.
Proof.
  revert ys. induction xs as [|x xs IH]; intros ys H; simpl in H.
  - injection H as <-. constructor.
  - destruct (f x) as [y|] eqn:Hy; simpl in H; [|discriminate].
    destruct (map_res f xs) as [ys'|]; simpl in H; [|discriminate].
    injection H as <-. constructor; auto.
Qed.

(** ** [encode] as a pipeline *)

Section EncodePipeline.
Context {ModelArch : Type}.
Variable argsort : list Z -> list nat.
Variable self : @BaseModel ModelArch.

(** Sorting, batching, embedding and restoring, one after the other. *)
Lemma encode_pipeline (sentences : list string) (batch_size : Z)
    (convert_to_numpy convert_to_tensor : bool) :
  encode argsort self (Many sentences) batch_size convert_to_numpy convert_to_tensor
  = (let length_sorted_idx :=
       argsort (map (fun s => (- Z.of_nat (String.length s))%Z) sentences) in
     try! sentences_sorted := gather sentences length_sorted_idx in
     try! batches := sentence_batches (length sentences) sentences_sorted batch_size in
     try! rows := map_res (encode_batch self) batches in
     try! all_embeddings :=
       gather (concat rows) (argsort (map Z.of_nat length_sorted_idx)) in
     if convert_to_tensor then torch_stack all_embeddings
     else if convert_to_numpy then np_asarray all_embeddings
     else Ok (Embeddings PyList all_embeddings)).
Proof.
  unfold encode, sentence_batches. cbv zeta.
  destruct (gather sentences _) as [sorted|]; [|reflexivity]. simpl bind.
  destruct (Py.range _ _) as [starts|]; [|reflexivity]. simpl bind.
  rewrite for_each_append, map_res_map.
  destruct (map_res _ starts) as [rows|]; [|reflexivity]. simpl bind.
  destruct (gather _ _) as [all|]; [|reflexivity]. simpl bind.
  destruct convert_to_tensor; [|destruct convert_to_numpy];
    match goal with |- context [bind ?m _] => destruct m end; reflexivity.
Qed.

End EncodePipeline.

(** ** The batches of [encode] *)

Lemma range_slices (sorted : list string) (b : nat) :
  0 < b ->
  forall fuel start,
    length sorted - start <= fuel ->
    let batches :=
      map (fun start_index => Py.slice sorted start_index (start_index + b))
          (Py.range_from fuel start (length sorted) b) in
    concat batches = drop start sorted
    /\ Forall (fun batch => 0 < length batch <= b) batches
    /\ length sorted - start <= length batches * b < length sorted - start + b.
Proof.
  intros Hb. set (n := length sorted).
  induction fuel as [|fuel IH]; intros start Hfuel; simpl.
  - split; [|split; [constructor|lia]].
    symmetry. apply drop_ge. fold n. lia.
  - destruct (Nat.ltb_spec start n) as [Hlt|Hge]; simpl.
    + destruct (IH (start + b)) as (Hcat & Hall & Hcount); [lia|].
      split; [|split].
      * rewrite Hcat. unfold Py.slice.
        replace (start + b - start) with b by lia.
        rewrite <- (drop_drop sorted b start). apply take_drop.
      * constructor; [|exact Hall].
        unfold Py.slice. rewrite length_take, length_drop. fold n. lia.
      * remember (length (map _ _)) as c eqn:Hc in *.
        clear Hc Hcat Hall IH. clearbody n.
        destruct (Nat.le_gt_cases b (n - start)) as [Hle|Hgt]; [lia|].
        assert (c = 0) as -> by (destruct c; [reflexivity|simpl in Hcount; lia]).
        lia.
    + split; [|split; [constructor|lia]].
      symmetry. apply drop_ge. fold n. lia.
Qed.

(** X9.  With a positive batch size the loop of [encode] cuts the sorted
    sentences into consecutive batches: none is empty, none is longer than
    the batch size, put together again they are the sorted list, and there
    are as many as the length divided by the batch size, rounded up. *)
Theorem sentence_batches_partition (sentences_sorted : list string)
    (batch_size : Z) :
  (0 < batch_size)%Z ->
  exists batches,
    sentence_batches (length sentences_sorted) sentences_sorted batch_size
    = Ok batches
    /\ concat batches = sentences_sorted
    /\ Forall (fun batch => 0 < length batch <= Z.to_nat batch_size) batches
    /\ length sentences_sorted <= length batches * Z.to_nat batch_size
       < length sentences_sorted + Z.to_nat batch_size.
Proof.
  intros Hbs. unfold sentence_batches, Py.range.
  destruct (Z.eqb_spec batch_size 0) as [?|_]; [lia|].
  destruct (Z.ltb_spec batch_size 0) as [?|_]; [lia|].
  simpl bind. eexists. split; [reflexivity|].
  destruct (range_slices sentences_sorted (Z.to_nat batch_size) ltac:(lia)
              (length sentences_sorted) 0 ltac:(lia)) as (Hcat & Hall & Hcount).
  split; [exact Hcat|]. split; [exact Hall|]. lia.
Qed.

Lemma sentence_batches_partition_witness :
  exists batches,
    sentence_batches 5 ["eeeee"; "dddd"; "ccc"; "bb"; "a"] 2 = Ok batches
    /\ concat batches = ["eeeee"; "dddd"; "ccc"; "bb"; "a"]
    /\ length batches = 3.
Proof.
  destruct (sentence_batches_partition ["eeeee"; "dddd"; "ccc"; "bb"; "a"] 2)
    as (batches & Hb & Hcat & _ & Hcount); [lia|].
  exists batches. split; [exact Hb|]. split; [exact Hcat|].
  simpl in Hcount. lia.
Defined.

(** ** The length sort *)

Lemma map_nth_seq_gen {A : Type} (d : A) (l : list A) :
  map (fun j => nth j l d) (seq 0 (length l)) = l.
Proof.
  apply list_eq. intros i.
  change (map (fun j => nth j l d) (seq 0 (length l)))
    with ((fun j => nth j l d) <$> seq 0 (length l)).
  rewrite list_lookup_fmap.
  destruct (decide (i < length l)) as [Hi|Hi].
  - rewrite lookup_seq_lt by exact Hi. simpl.
    destruct (lookup_lt_is_Some_2 l i Hi) as [x Hx]. rewrite Hx.
    f_equal. apply nth_lookup_Some with (d := d) in Hx. exact Hx.
  - rewrite lookup_seq_ge by lia. simpl. symmetry. apply lookup_ge_None. lia.
Qed.

Lemma gather_map {A : Type} (d : A) (xs : list A) (idxs : list nat) (ys : list A) :
  gather xs idxs = Ok ys -> ys = map (fun i => nth i xs d) idxs.
Proof.
  revert ys. induction idxs as [|i idxs IH]; intros ys H; simpl in H.
  - injection H as <-. reflexivity.
  - destruct (xs !! i) as [x|] eqn:Hx; [|discriminate].
    destruct (gather xs idxs) as [rest|]; simpl in H; [|discriminate].
    injection H as <-. simpl. f_equal; [|apply IH; reflexivity].
    symmetry. apply nth_lookup_Some with (d := d) in Hx. exact Hx.
Qed.

Lemma Sorted_neg_length (l : list string) :
  Sorted Z.le (map (fun s => (- Z.of_nat (String.length s))%Z) l) ->
  Sorted (fun a b => String.length b <= String.length a) l.
Proof.
  induction l as [|a l IH]; intros H; [constructor|].
  simpl in H. inversion H as [|? ? Hs Hhd]; subst.
  constructor; [auto|].
  destruct l as [|b l]; simpl in *; constructor.
  inversion Hhd; subst. lia.
Qed.

(** X10.  The sorted copy that [encode] batches is a rearrangement of the
    input in which no sentence is longer than the one before it, however
    [argsort] orders sentences of equal length. *)
Theorem sentences_sorted_descending (argsort : list Z -> list nat)
    (sentences : list string) :
  is_argsort (map (fun s => (- Z.of_nat (String.length s))%Z) sentences)
             (argsort (map (fun s => (- Z.of_nat (String.length s))%Z) sentences)) ->
  exists sentences_sorted,
    gather sentences
      (argsort (map (fun s => (- Z.of_nat (String.length s))%Z) sentences))
    = Ok sentences_sorted
    /\ sentences_sorted ≡ₚ sentences
    /\ Sorted (fun a b => String.length b <= String.length a) sentences_sorted.
Proof.
  set (keys := map (fun s => (- Z.of_nat (String.length s))%Z) sentences).
  intros [Hperm Hsorted].
  assert (Hkl : length keys = length sentences) by apply length_map.
  rewrite Hkl in Hperm.
  destruct (gather_spec sentences (argsort keys)) as (sorted & Hg & _ & _).
  { rewrite Hperm. apply Forall_seq. intros; lia. }
  exists sorted. split; [exact Hg|].
  apply (gather_map EmptyString) in Hg. subst sorted. split.
  - change (map (fun i => nth i sentences EmptyString) (argsort keys))
      with ((fun i => nth i sentences EmptyString) <$> argsort keys).
    rewrite Hperm.
    change ((fun i => nth i sentences EmptyString) <$> seq 0 (length sentences))
      with (map (fun i => nth i sentences EmptyString) (seq 0 (length sentences))).
    rewrite (map_nth_seq_gen EmptyString). reflexivity.
  - apply Sorted_neg_length. rewrite map_map.
    erewrite map_ext; [exact Hsorted|].
    intros i. simpl. unfold keys. symmetry.
    apply (map_nth (fun s => (- Z.of_nat (String.length s))%Z) sentences EmptyString).
Qed.

Lemma sentences_sorted_descending_witness :
  exists sentences_sorted,
    gather ["hi"; "a longer one"; "abc"]
      (argsort_stable (map (fun s => (- Z.of_nat (String.length s))%Z)
                           ["hi"; "a longer one"; "abc"]))
    = Ok sentences_sorted
    /\ sentences_sorted ≡ₚ ["hi"; "a longer one"; "abc"].
Proof.
  destruct (sentences_sorted_descending argsort_stable
              ["hi"; "a longer one"; "abc"] (argsort_stable_ok _))
    as (sorted & Hg & Hperm & _).
  exists sorted. split; [exact Hg|exact Hperm].
Defined.

(** ** Failures of [encode] *)

Section EncodeFailures.
Context {ModelArch : Type}.
Variable argsort : list Z -> list nat.
Hypothesis argsort_ok : forall keys, is_argsort keys (argsort keys).
Variable self : @BaseModel ModelArch.
Variables convert_to_numpy convert_to_tensor : bool.

Lemma encode_as_list (sentences : sentences_arg) (batch_size : Z) (e : exn) :
  encode argsort self (Many (sentence_list sentences)) batch_size
         convert_to_numpy convert_to_tensor = Raise e ->
  encode argsort self sentences batch_size convert_to_numpy convert_to_tensor
  = Raise e.
Proof.
  destruct sentences as [s|l]; simpl; [|auto].
  intros H. rewrite encode_single, H. reflexivity.
Qed.

Lemma length_sort_ok (sentences : list string) :
  exists sentences_sorted,
    gather sentences
      (argsort (map (fun s => (- Z.of_nat (String.length s))%Z) sentences))
    = Ok sentences_sorted
    /\ length sentences_sorted = length sentences.
Proof.
  destruct (argsort_ok (map (fun s => (- Z.of_nat (String.length s))%Z) sentences))
    as [Hperm _].
  rewrite length_map in Hperm.
  destruct (gather_spec sentences
              (argsort (map (fun s => (- Z.of_nat (String.length s))%Z) sentences)))
    as (sorted & Hg & Hl & _).
  { rewrite Hperm. apply Forall_seq. intros; lia. }
  exists sorted. split; [exact Hg|].
  rewrite Hl, (Permutation_length Hperm). apply length_seq.
Qed.

(** X5.  A batch size of zero is a [ValueError] for every input, the empty
    list included, before the tokenizer or the encoder is called. *)
Theorem encode_zero_batch_size (sentences : sentences_arg) :
  encode argsort self sentences 0 convert_to_numpy convert_to_tensor
  = Raise ValueError.
Proof.
  apply encode_as_list. rewrite encode_pipeline. cbv zeta.
  destruct (length_sort_ok (sentence_list sentences)) as (sorted & Hg & _).
  rewrite Hg. reflexivity.
Qed.

(** X6.  With a negative batch size the loop runs zero times, so for any
    input that is not the empty list restoring the order fails with an
    [IndexError]; neither tokenizer nor encoder is called. *)
Theorem encode_negative_batch_size (sentences : sentences_arg) (batch_size : Z) :
  (batch_size < 0)%Z ->
  sentence_list sentences <> [] ->
  encode argsort self sentences batch_size convert_to_numpy convert_to_tensor
  = Raise IndexError.
Proof.
  intros Hneg Hne. apply encode_as_list. rewrite encode_pipeline. cbv zeta.
  set (l := sentence_list sentences) in *.
  destruct (length_sort_ok l) as (sorted & Hg & _).
  rewrite Hg. simpl bind. unfold sentence_batches, Py.range.
  destruct (Z.eqb_spec batch_size 0) as [?|_]; [lia|].
  destruct (Z.ltb_spec batch_size 0) as [_|?]; [|lia].
  simpl.
  destruct (argsort_ok
              (map Z.of_nat
                 (argsort (map (fun s => (- Z.of_nat (String.length s))%Z) l))))
    as [Hinv _].
  destruct (argsort_ok (map (fun s => (- Z.of_nat (String.length s))%Z) l))
    as [Hidx _].
  rewrite length_map in Hinv, Hidx.
  apply Permutation_length in Hidx. rewrite length_seq in Hidx.
  apply Permutation_length in Hinv. rewrite length_seq, Hidx in Hinv.
  destruct (argsort (map Z.of_nat _)) as [|i inv].
  - destruct l; [contradiction|discriminate].
  - reflexivity.
Qed.

(** X7.  The first batch on which tokenizer or encoder raise ends the
    call: [encode] raises the same exception and returns no embedding of
    the batches before it. *)
Theorem encode_propagates_failure (sentences sentences_sorted : list string)
    (batch_size : Z) (batches : list (list string)) (k : nat)
    (batch : list string) (e : exn) :
  gather sentences
    (argsort (map (fun s => (- Z.of_nat (String.length s))%Z) sentences))
  = Ok sentences_sorted ->
  sentence_batches (length sentences) sentences_sorted batch_size = Ok batches ->
  (forall j b, j < k -> batches !! j = Some b ->
     exists rows, encode_batch self b = Ok rows) ->
  batches !! k = Some batch ->
  encode_batch self batch = Raise e ->
  encode argsort self (Many sentences) batch_size convert_to_numpy convert_to_tensor
  = Raise e.
Proof.
  intros Hg Hb Hbefore Hk He. rewrite encode_pipeline. cbv zeta.
  rewrite Hg. simpl bind. rewrite Hb. simpl bind.
  rewrite (map_res_first_failure _ batches k batch e Hbefore Hk He).
  reflexivity.
Qed.

(** X8.  When [get_sentence_embeddings] returns [None] (no encoder type,
    or POOLER on a model without pooling head), [encode] fails on its first
    batch with an [AttributeError], for every input that is not the empty
    list. *)
Theorem encode_without_embedding (sentences : sentences_arg) (batch_size : Z) :
  (0 < batch_size)%Z ->
  sentence_list sentences <> [] ->
  (forall batch, batch <> [] ->
     exists enc, tokenizer self batch (max_seq_length self) = Ok enc
              /\ get_sentence_embeddings self (input_ids enc) (attention_mask enc)
                   (token_type_ids enc) = Ok None) ->
  encode argsort self sentences batch_size convert_to_numpy convert_to_tensor
  = Raise AttributeError.
Proof.
  intros Hbs Hne Hnone. apply encode_as_list. rewrite encode_pipeline. cbv zeta.
  set (l := sentence_list sentences) in *.
  destruct (length_sort_ok l) as (sorted & Hg & Hlen).
  rewrite Hg. simpl bind. unfold sentence_batches, Py.range.
  destruct (Z.eqb_spec batch_size 0) as [?|_]; [lia|].
  destruct (Z.ltb_spec batch_size 0) as [?|_]; [lia|].
  simpl bind.
  destruct l as [|s l']; [contradiction|].
  destruct sorted as [|s0 sorted']; [discriminate|].
  cbn [length Py.range_from Nat.ltb Nat.leb map map_res].
  destruct (Hnone (Py.slice (s0 :: sorted') 0 (0 + Z.to_nat batch_size)))
    as (enc & Htok & Hemb).
  { unfold Py.slice. destruct (Z.to_nat batch_size) eqn:Hb; [lia|discriminate]. }
  unfold encode_batch at 1. rewrite Htok. simpl bind. rewrite Hemb. reflexivity.
Qed.

End EncodeFailures.

Lemma encode_zero_batch_size_witness :
  encode argsort_stable (example_model (Some CLS)) (Many []) 0 true false
  = Raise ValueError.
Proof.
  apply (encode_zero_batch_size argsort_stable argsort_stable_ok).
Defined.

Lemma encode_negative_batch_size_witness :
  encode argsort_stable (example_model (Some CLS)) (Many ["hi"; "hello"]) (-1)
         true false = Raise IndexError.
Proof.
  apply (encode_negative_batch_size argsort_stable argsort_stable_ok).
  - lia.
  - discriminate.
Defined.

Lemma encode_propagates_failure_witness :
  encode argsort_stable fussy_model (Many ["hi"; "hello"]) 1 true false
  = Raise RuntimeError.
Proof.
  apply (encode_propagates_failure argsort_stable fussy_model true false
           ["hi"; "hello"] ["hello"; "hi"] 1 [["hello"]; ["hi"]] 1 ["hi"]).
  - reflexivity.
  - reflexivity.
  - intros [|j] b Hj Hb; [|lia]. injection Hb as <-. eexists. reflexivity.
  - reflexivity.
  - reflexivity.
Defined.

Lemma encode_without_embedding_witness :
  encode argsort_stable (example_model None) (Single "hi") 64 true false
  = Raise AttributeError.
Proof.
  apply (encode_without_embedding argsort_stable argsort_stable_ok).
  - lia.
  - discriminate.
  - intros batch _. eexists. split; reflexivity.
Defined.

(** ** A sentence-wise encoder *)

Lemma map_seq_const {A B : Type} (f : nat -> B) (g : A -> B) (l : list A) :
  (forall i x, f i = g x) ->
  forall start, map f (seq start (length l)) = map g l.
Proof.
  intros H. induction l as [|x l IH]; intros start; simpl; [reflexivity|].
  rewrite (H start x), IH. reflexivity.
Qed.

Lemma example_sentencewise (batch : list string) :
  encode_batch (example_model (Some CLS)) batch = Ok (map example_embedding batch).
Proof.
  assert (H : exists t,
             encode_batch (example_model (Some CLS)) batch
             = Ok (map (Torch.row t) (seq 0 (length batch)))
             /\ forall i s, Torch.row t i = example_embedding s).
  { eexists. split; [reflexivity|]. intros i s. reflexivity. }
  destruct H as (t & -> & Hrow). f_equal.
  apply map_seq_const. exact Hrow.
Qed.

Lemma encode_sentencewise_witness :
  encode argsort_stable (example_model (Some CLS))
         (Many ["hi"; "a longer one"; "abc"]) 2 true false
  = Ok (Embeddings NdArray
          (map example_embedding ["hi"; "a longer one"; "abc"])).
Proof.
  apply (encode_sentencewise argsort_stable (example_model (Some CLS))
           ["hi"; "a longer one"; "abc"] 2 [2] example_embedding true false).
  - apply argsort_stable_ok.
  - lia.
  - intros s _. reflexivity.
  - intros batch _ _. apply example_sentencewise.
  - discriminate.
Defined.

(** ** The other pooling variants *)

Lemma add_zero_r x : Float.add x Float.zero ≈ x.
Proof. destruct x; simpl; auto. ring. Qed.

Lemma sum_over_snoc (js : list nat) (j : nat) (f : nat -> float) :
  sum_over (js ++ [j]) f = Float.add (sum_over js f) (f j).
Proof. unfold sum_over. rewrite fold_left_app. reflexivity. Qed.

Lemma real_tokens_succ (mask : tensor Z) (b l : nat) :
  real_tokens mask b (S l)
  = real_tokens mask b l
    ++ (if bool_decide (data mask [b; l] = 1%Z) then [l] else []).
Proof.
  unfold real_tokens. rewrite seq_S, filter_app. simpl. f_equal.
  rewrite filter_cons, filter_nil.
  destruct (decide (bool_decide (data mask [b; l] = 1%Z))) as [Ht|Hf].
  - destruct (bool_decide _); [reflexivity|contradiction].
  - destruct (bool_decide _); [exfalso; apply Hf; exact I|reflexivity].
Qed.

Section MaskedMean.
Variable x : list nat -> float.
Variable mask : tensor Z.
Variable b h : nat.

(** With a mask of zeros and ones, and finite vectors where it is zero,
    the weighted sum is the sum over the real tokens and the sum of the
    mask is their number. *)
Lemma masked_sum (l : nat) :
  (forall j, j < l -> data mask [b; j] = 0%Z \/ data mask [b; j] = 1%Z) ->
  (forall j, j < l -> data mask [b; j] = 0%Z ->
     Float.is_finite (x [b; j; h]) = true) ->
  Float.sum l (fun j => Float.mul (x [b; j; h]) (Float.of_Z (data mask [b; j])))
  ≈ sum_over (real_tokens mask b l) (fun j => x [b; j; h])
  /\ Float.sum l (fun j => Float.of_Z (data mask [b; j]))
     ≈ Float.of_nat (length (real_tokens mask b l)).
Proof.
  induction l as [|l IH]; intros Hbin Hfin.
  - split; reflexivity.
  - destruct IH as [IHs IHc]; [intros; apply Hbin; lia|intros; apply Hfin; lia|].
    rewrite real_tokens_succ. simpl Float.sum.
    destruct (Hbin l) as [Hz|Ho]; [lia| |].
    + rewrite Hz. rewrite bool_decide_eq_false_2 by discriminate.
      rewrite app_nil_r. split.
      * rewrite IHs, (mul_zero_r _ (Hfin l ltac:(lia) Hz)). apply add_zero_r.
      * rewrite IHc. apply add_zero_r.
    + rewrite Ho. rewrite bool_decide_eq_true_2 by reflexivity. split.
      * rewrite sum_over_snoc, IHs, mul_one_r. reflexivity.
      * rewrite IHc, length_app. simpl length.
        unfold Float.of_nat, Float.of_Z. simpl.
        rewrite <- inject_Z_plus. rewrite Nat2Z.inj_add. reflexivity.
Qed.

End MaskedMean.

Section OtherVariants.
Variable out : model_output.
Variable mask : tensor Z.
Variables B L H : nat.

(** X1.  Under the LAST_AVG variant the embedding of every sentence is
    the sum of all [L] token vectors of the final layer divided by [L],
    padding positions included, whatever the attention mask is. *)
Theorem pool_LAST_AVG_unweighted_mean :
  shape (last_hidden_state out) = [B; L; H] -> 0 < L -> 0 < H ->
  exists t, pool (Some LAST_AVG) out mask = Ok (Some t)
         /\ shape t = [B; H]
         /\ forall b h,
              data t [b; h]
              = Float.div (Float.sum L (fun j => data (last_hidden_state out) [b; j; h]))
                          (Float.of_nat L).
Proof.
  intros Hs HL HH.
  destruct (pool_LAST_AVG_mean out mask B L H Hs HL HH) as (t & Ht & Hsh & Hd).
  exists t. split; [exact Ht|]. split; [exact Hsh|].
  intros b h. rewrite Hd. reflexivity.
Qed.

(** X2.  Under the MEAN variant, for a sentence whose mask consists of
    zeros and ones with at least one one, the embedding is the sum of the
    token vectors at the real positions divided by their number (hidden
    states at padded positions being finite). *)
Theorem pool_MEAN_real_token_mean :
  shape (last_hidden_state out) = [B; L; H] -> shape mask = [B; L] ->
  exists t, pool (Some MEAN) out mask = Ok (Some t)
         /\ forall b h, b < B ->
              (forall j, j < L -> data mask [b; j] = 0%Z \/ data mask [b; j] = 1%Z) ->
              (forall j, j < L -> data mask [b; j] = 0%Z ->
                 Float.is_finite (data (last_hidden_state out) [b; j; h]) = true) ->
              real_tokens mask b L <> [] ->
              data t [b; h] ≈
              Float.div (sum_over (real_tokens mask b L)
                           (fun j => data (last_hidden_state out) [b; j; h]))
                        (Float.of_nat (length (real_tokens mask b L))).
Proof.
  intros Hs Hm.
  destruct (pool_MEAN_weighted out mask B L H Hs Hm) as (t & Ht & _ & Hd).
  exists t. split; [exact Ht|].
  intros b h Hb Hbin Hfin Hreal. rewrite (Hd b h Hb).
  destruct (masked_sum (data (last_hidden_state out)) mask b h L Hbin Hfin)
    as [Hsum Hcount].
  rewrite Hsum, Hcount. rewrite clamp_count; [reflexivity|].
  destruct (real_tokens mask b L); [contradiction|simpl; lia].
Qed.

(** X3.  Under the MEAN variant the embedding of a sentence does not
    depend on the hidden states at the positions its mask sets to zero,
    as long as they are finite. *)
Theorem pool_MEAN_ignores_padding (out' : model_output) :
  shape (last_hidden_state out) = [B; L; H] ->
  shape (last_hidden_state out') = [B; L; H] ->
  shape mask = [B; L] ->
  exists t t',
    pool (Some MEAN) out mask = Ok (Some t)
    /\ pool (Some MEAN) out' mask = Ok (Some t')
    /\ forall b h, b < B ->
         (forall j, j < L ->
            (data mask [b; j] = 0%Z
             /\ Float.is_finite (data (last_hidden_state out) [b; j; h]) = true
             /\ Float.is_finite (data (last_hidden_state out') [b; j; h]) = true)
            \/ data (last_hidden_state out) [b; j; h]
               = data (last_hidden_state out') [b; j; h]) ->
         data t [b; h] ≈ data t' [b; h].
Proof.
  intros Hs Hs' Hm.
  destruct (pool_MEAN_weighted out mask B L H Hs Hm) as (t & Ht & _ & Hd).
  destruct (pool_MEAN_weighted out' mask B L H Hs' Hm) as (t' & Ht' & _ & Hd').
  exists t, t'. split; [exact Ht|]. split; [exact Ht'|].
  intros b h Hb Hsame. rewrite (Hd b h Hb), (Hd' b h Hb).
  apply div_proper; [|reflexivity].
  apply sum_ext. intros j Hj.
  destruct (Hsame j Hj) as [(Hz & Hf & Hf')|Heq].
  - rewrite Hz, (mul_zero_r _ Hf), (mul_zero_r _ Hf'). reflexivity.
  - rewrite Heq. reflexivity.
Qed.

(** X4.  The FIRST_LAST_AVG variant reads [hidden_states[1]]: with fewer
    than two hidden states it fails with an [IndexError]. *)
Theorem pool_FIRST_LAST_AVG_needs_two_layers :
  length (hidden_states out) < 2 ->
  pool (Some FIRST_LAST_AVG) out mask = Raise IndexError.
Proof.
  intros Hlen. unfold pool, Py.index.
  destruct (hidden_states out) as [|t0 [|t1 l]]; simpl in *; try reflexivity.
  lia.
Qed.

End OtherVariants.

Lemma pool_LAST_AVG_unweighted_mean_witness :
  exists t, pool (Some LAST_AVG) example_output zero_mask = Ok (Some t)
         /\ data t [1; 0] ≈ Finite 10.
Proof.
  destruct (pool_LAST_AVG_unweighted_mean example_output zero_mask 2 2 2)
    as (t & Ht & _ & Hd); [reflexivity|lia|lia|].
  exists t. split; [exact Ht|]. rewrite Hd. reflexivity.
Defined.

Lemma pool_MEAN_real_token_mean_witness :
  exists t, pool (Some MEAN) example_output padded_mask = Ok (Some t)
         /\ data t [1; 0] ≈ Finite 9 /\ data t [1; 1] ≈ Finite 10.
Proof.
  destruct (pool_MEAN_real_token_mean example_output padded_mask 2 2 2)
    as (t & Ht & Hd); [reflexivity|reflexivity|].
  exists t. split; [exact Ht|].
  split; (etransitivity; [apply Hd|reflexivity]); try lia; try discriminate;
    try (intros [|[|j]] Hj; [right; reflexivity|left; reflexivity|lia]);
    intros [|[|j]] Hj Hz; try reflexivity; try discriminate; lia.
Defined.

Lemma pool_MEAN_ignores_padding_witness :
  exists t t',
    pool (Some MEAN) example_output padded_mask = Ok (Some t)
    /\ pool (Some MEAN) example_output_alt padded_mask = Ok (Some t')
    /\ data t [1; 0] ≈ data t' [1; 0].
Proof.
  destruct (pool_MEAN_ignores_padding example_output padded_mask 2 2 2
              example_output_alt)
    as (t & t' & Ht & Ht' & Hd); [reflexivity|reflexivity|reflexivity|].
  exists t, t'. split; [exact Ht|]. split; [exact Ht'|].
  apply Hd; [lia|].
  intros [|[|j]] Hj; [right; reflexivity|left; repeat split; reflexivity|lia].
Defined.

Lemma pool_FIRST_LAST_AVG_needs_two_layers_witness :
  pool (Some FIRST_LAST_AVG) embeddings_only_output ones_mask = Raise IndexError.
Proof.
  apply pool_FIRST_LAST_AVG_needs_two_layers. simpl. lia.
Defined.

(** ** [evaluate] as a pipeline *)

Section EvaluatePipeline.
Context {ModelArch : Type}.
Variable cosine_similarity : tensor float -> tensor float -> res (list float).
Variable compute_spearmanr : list float -> list float -> res float.
Variable compute_pearsonr : list float -> list float -> res float.
Variable str : float -> string.
Variable self : @BaseModel ModelArch.

Lemma evaluate_batch_predictions (acc : list float * list float)
    (batch : eval_batch) :
  evaluate_batch cosine_similarity self acc batch
  = (try! preds := batch_predictions cosine_similarity self batch in
     Ok (fst acc ++ labels batch, snd acc ++ preds)).
Proof.
  destruct acc as [ls ps]. unfold evaluate_batch, batch_predictions. simpl fst. simpl snd.
  do 6 (destruct (Torch.squeeze _ 1); simpl bind; [|reflexivity]).
  do 2 (destruct (get_sentence_embeddings _ _ _ _) as [[?|]|];
        simpl bind; try reflexivity).
Qed.

Lemma evaluate_loop (eval_dataloader : list eval_batch)
    (acc : list float * list float) :
  for_each eval_dataloader (evaluate_batch cosine_similarity self) acc
  = (try! preds := map_res (batch_predictions cosine_similarity self)
                     eval_dataloader in
     Ok (fst acc ++ concat (map labels eval_dataloader),
         snd acc ++ concat preds)).
Proof.
  revert acc. induction eval_dataloader as [|batch dl IH]; intros acc; simpl.
  - rewrite !app_nil_r. destruct acc; reflexivity.
  - rewrite evaluate_batch_predictions.
    destruct (batch_predictions cosine_similarity self batch) as [p|];
      simpl; [|reflexivity].
    rewrite IH.
    destruct (map_res _ dl) as [ps|]; simpl; [|reflexivity].
    rewrite !app_assoc. reflexivity.
Qed.

(** What a successful [evaluate] has returned. *)
Lemma evaluate_inv (eval_dataloader : list eval_batch)
    (output_dir : option string) (results : gmap string float)
    (written : list file_write) :
  evaluate cosine_similarity compute_spearmanr compute_pearsonr str
           self eval_dataloader output_dir = Ok (results, written) ->
  exists preds spearman pearson,
    map_res (batch_predictions cosine_similarity self) eval_dataloader = Ok preds
    /\ compute_spearmanr (concat (map labels eval_dataloader)) (concat preds)
       = Ok spearman
    /\ compute_pearsonr (concat (map labels eval_dataloader)) (concat preds)
       = Ok pearson
    /\ results = <["eval_pearson" := pearson]> (<["eval_spearman" := spearman]> ∅)
    /\ written = match output_dir with
                 | Some (String c dir) =>
                     [FileWrite (Py.path_join (String c dir) "eval_results.txt")
                                (report str results)]
                 | _ => []
                 end.
Proof.
  unfold evaluate. rewrite evaluate_loop.
  destruct (map_res _ eval_dataloader) as [preds|]; simpl; [|discriminate].
  destruct (compute_spearmanr _ _) as [sp|] eqn:Hsp; simpl; [|discriminate].
  destruct (compute_pearsonr _ _) as [pe|] eqn:Hpe; simpl; [|discriminate].
  intros Hev. injection Hev as <- <-.
  exists preds, sp, pe. repeat split; try assumption.
  destruct output_dir as [[|c dir]|]; reflexivity.
Qed.

(** X13.  When [evaluate] returns, both coefficients were computed from
    the same two sequences: the gold labels of all batches and the
    similarities of all batches, each in the order of the batches. *)
Theorem evaluate_accumulates_in_order (eval_dataloader : list eval_batch)
    (output_dir : option string) (results : gmap string float)
    (written : list file_write) :
  evaluate cosine_similarity compute_spearmanr compute_pearsonr str
           self eval_dataloader output_dir = Ok (results, written) ->
  exists preds spearman pearson,
    Forall2 (fun batch p => batch_predictions cosine_similarity self batch = Ok p)
            eval_dataloader preds
    /\ compute_spearmanr (concat (map labels eval_dataloader)) (concat preds)
       = Ok spearman
    /\ compute_pearsonr (concat (map labels eval_dataloader)) (concat preds)
       = Ok pearson
    /\ results !! "eval_spearman" = Some spearman
    /\ results !! "eval_pearson" = Some pearson.
Proof.
  intros Hev.
  destruct (evaluate_inv _ _ _ _ Hev) as (preds & sp & pe & Hp & Hsp & Hpe & -> & _).
  exists preds, sp, pe. split; [apply map_res_ok; exact Hp|].
  split; [exact Hsp|]. split; [exact Hpe|]. split.
  - rewrite lookup_insert_ne by discriminate. apply lookup_insert_eq.
  - apply lookup_insert_eq.
Qed.

(** X14.  A batch on which embedding or similarity raise ends the
    evaluation with that exception; nothing is returned and no report is
    written. *)
Theorem evaluate_propagates_failure (eval_dataloader : list eval_batch)
    (output_dir : option string) (k : nat) (batch : eval_batch) (e : exn) :
  (forall j b, j < k -> eval_dataloader !! j = Some b ->
     exists p, batch_predictions cosine_similarity self b = Ok p) ->
  eval_dataloader !! k = Some batch ->
  batch_predictions cosine_similarity self batch = Raise e ->
  evaluate cosine_similarity compute_spearmanr compute_pearsonr str
           self eval_dataloader output_dir = Raise e.
Proof.
  intros Hbefore Hk He. unfold evaluate. rewrite evaluate_loop.
  rewrite (map_res_first_failure _ eval_dataloader k batch e Hbefore Hk He).
  reflexivity.
Qed.

End EvaluatePipeline.

Lemma evaluate_accumulates_in_order_witness :
  exists preds,
    Forall2 (fun batch p =>
               batch_predictions example_cosine (example_model (Some CLS)) batch
               = Ok p)
            [example_batch; example_batch] preds
    /\ concat preds = floats [1; 1; 1; 1]%Q.
Proof.
  destruct (evaluate_accumulates_in_order example_cosine example_correlation
              example_correlation example_str (example_model (Some CLS))
              [example_batch; example_batch] None
              (<["eval_pearson" := Finite 8]> (<["eval_spearman" := Finite 8]> ∅))
              [])
    as (preds & sp & pe & Hp & _); [reflexivity|].
  exists preds. split; [exact Hp|].
  inversion Hp as [|? p1 ? ps H1 Hrest]; subst.
  inversion Hrest as [|? p2 ? ps' H2 Hnil]; subst.
  inversion Hnil; subst.
  vm_compute in H1. vm_compute in H2.
  injection H1 as <-. injection H2 as <-. reflexivity.
Defined.

Lemma evaluate_propagates_failure_witness :
  evaluate example_cosine example_correlation example_correlation example_str
           (example_model None) [example_batch] (Some "out")
  = Raise TypeError.
Proof.
  apply (evaluate_propagates_failure example_cosine example_correlation
           example_correlation example_str (example_model None)
           [example_batch] (Some "out") 0 example_batch).
  - intros j b Hj. lia.
  - reflexivity.
  - reflexivity.
Defined.

(** ** [eval_model] *)

Section EvalModel.
Context {ModelArch : Type}.
Variable cosine_similarity : tensor float -> tensor float -> res (list float).
Variable compute_spearmanr : list float -> list float -> res float.
Variable compute_pearsonr : list float -> list float -> res float.
Variable str : float -> string.

(** X15.  When the evaluation returns, [eval_model] returns its result
    and writes what it wrote; in the results kept by the model the two
    coefficients are replaced by those of this run and every other entry
    stays as it was. *)
Theorem eval_model_updates_results (self : @BaseModel ModelArch)
    (eval_dataset : list eval_batch) (output_dir : option string)
    (result : gmap string float) (written : list file_write) :
  evaluate cosine_similarity compute_spearmanr compute_pearsonr str
           self eval_dataset output_dir = Ok (result, written) ->
  exists self',
    eval_model cosine_similarity compute_spearmanr compute_pearsonr str
               self eval_dataset output_dir = Ok (self', result, written)
    /\ results self' !! "eval_pearson" = result !! "eval_pearson"
    /\ results self' !! "eval_spearman" = result !! "eval_spearman"
    /\ is_Some (results self' !! "eval_pearson")
    /\ is_Some (results self' !! "eval_spearman")
    /\ (forall key, key <> "eval_pearson" -> key <> "eval_spearman" ->
          results self' !! key = results self !! key)
    /\ encoder_type self' = encoder_type self
    /\ model self' = model self
    /\ tokenizer self' = tokenizer self.
Proof.
  intros Hev. unfold eval_model. rewrite Hev. simpl.
  eexists. split; [reflexivity|].
  destruct (evaluate_inv cosine_similarity compute_spearmanr compute_pearsonr str
              self _ _ _ _ Hev)
    as (preds & sp & pe & _ & _ & _ & -> & _).
  simpl.
  assert (Hpe : (<["eval_pearson" := pe]> (<["eval_spearman" := sp]> ∅)
                  : gmap string float) !! "eval_pearson" = Some pe)
    by apply lookup_insert_eq.
  assert (Hsp : (<["eval_pearson" := pe]> (<["eval_spearman" := sp]> ∅)
                  : gmap string float) !! "eval_spearman" = Some sp).
  { rewrite lookup_insert_ne by discriminate. apply lookup_insert_eq. }
  split; [|split; [|split; [|split; [|split]]]].
  - rewrite Hpe. apply lookup_union_Some_l. exact Hpe.
  - rewrite Hsp. apply lookup_union_Some_l. exact Hsp.
  - exists pe. apply lookup_union_Some_l. exact Hpe.
  - exists sp. apply lookup_union_Some_l. exact Hsp.
  - intros key Hne1 Hne2. apply lookup_union_r.
    rewrite !lookup_insert_ne by congruence. apply lookup_empty.
  - repeat split.
Qed.

End EvalModel.

Lemma eval_model_updates_results_witness :
  exists self',
    eval_model example_cosine example_correlation example_correlation example_str
               (example_model (Some CLS)) [example_batch] None
    = Ok (self', <["eval_pearson" := Finite 4]> (<["eval_spearman" := Finite 4]> ∅), [])
    /\ results self' !! "eval_pearson" = Some (Finite 4).
Proof.
  destruct (eval_model_updates_results example_cosine example_correlation
              example_correlation example_str (example_model (Some CLS))
              [example_batch] None
              (<["eval_pearson" := Finite 4]> (<["eval_spearman" := Finite 4]> ∅)) [])
    as (self' & Hev & Hpe & _); [reflexivity|].
  exists self'. split; [exact Hev|]. rewrite Hpe. reflexivity.
Defined.

(** ** The constructors *)

Section Constructors.
Context {ModelArch : Type}.
Variable ModelArch_from_string : string -> res ModelArch.
Variable EncoderType_from_string : string -> res EncoderType.
Variable default_device : string.
Variable AutoTokenizer_from_pretrained : option string -> res tokenizer_fn.
Variable AutoModel_from_pretrained : option string -> res transformer.

(** X16.  [BaseModel.__init__] returns a model exactly when the
    architecture is given and resolves to a member and the encoder type, if
    given as a string, resolves too; a missing architecture is a
    [ValueError].  The model starts without results, on the given device or
    else the default one. *)
Theorem BaseModel_init_accepts (arch_arg : arg ModelArch)
    (name : option string) (classes max_length : Z)
    (enc_arg : arg EncoderType) (device_arg : option string)
    (transformer_arg : transformer) (tokenizer_arg : tokenizer_fn) :
  let init :=
    BaseModel_init ModelArch_from_string EncoderType_from_string default_device
      arch_arg name classes max_length enc_arg device_arg
      transformer_arg tokenizer_arg in
  ((exists self, init = Ok self)
   <-> (exists arch, resolve ModelArch_from_string arch_arg = Ok (Some arch))
       /\ (exists et, resolve EncoderType_from_string enc_arg = Ok et))
  /\ (arch_arg = ArgNone -> init = Raise ValueError)
  /\ (forall self, init = Ok self ->
        results self = ∅
        /\ device self = default default_device device_arg
        /\ resolve ModelArch_from_string arch_arg = Ok (Some (model_arch self))
        /\ resolve EncoderType_from_string enc_arg = Ok (encoder_type self)).
Proof.
  intros init. subst init. unfold BaseModel_init. split; [|split].
  - split.
    + intros [self Hinit].
      destruct (resolve ModelArch_from_string arch_arg) as [[arch|]|];
        simpl in Hinit; try discriminate.
      destruct (resolve EncoderType_from_string enc_arg) as [et|];
        simpl in Hinit; try discriminate.
      eauto.
    + intros [[arch Harch] [et Het]]. rewrite Harch, Het. simpl. eauto.
  - intros ->. reflexivity.
  - intros self Hinit.
    destruct (resolve ModelArch_from_string arch_arg) as [[arch|]|];
      simpl in Hinit; try discriminate.
    destruct (resolve EncoderType_from_string enc_arg) as [et|];
      simpl in Hinit; try discriminate.
    injection Hinit as <-. simpl. destruct device_arg; auto.
Qed.

(** X17.  With [model_arch] left at its default [None],
    [BaseSentenceModel.__init__] never returns a model: it first loads the
    tokenizer and the model and raises what the loading raises, and
    otherwise the [ValueError] of the architecture check. *)
Theorem BaseSentenceModel_init_default_arch (name : option string)
    (classes max_length : Z) (enc_arg : arg EncoderType)
    (device_arg : option string) :
  BaseSentenceModel_init ModelArch_from_string EncoderType_from_string
    default_device AutoTokenizer_from_pretrained AutoModel_from_pretrained
    ArgNone name classes max_length enc_arg device_arg
  = match AutoTokenizer_from_pretrained name with
    | Raise e => Raise e
    | Ok _ => match AutoModel_from_pretrained name with
              | Raise e => Raise e
              | Ok _ => Raise ValueError
              end
    end.
Proof.
  unfold BaseSentenceModel_init.
  destruct (AutoTokenizer_from_pretrained name); simpl; [|reflexivity].
  destruct (AutoModel_from_pretrained name); reflexivity.
Qed.

End Constructors.

(** ** The report and [save_model] *)

Section Report.
Variable str : float -> string.

(** X12.  For every result mapping the report has one line per key,
    [key = value] followed by a newline; the keys are those of the mapping,
    each once, in lexicographic order, and each has its value. *)
Theorem report_format (results : gmap string float) :
  exists keys,
    report str results
    = String.concat EmptyString
        (map (fun key => key +:+ " = "
                         +:+ str (default Float.zero (results !! key)) +:+ newline)
             keys)
    /\ Sorted String.le keys
    /\ NoDup keys
    /\ (forall key, key ∈ keys <-> is_Some (results !! key))
    /\ length keys = size results.
Proof.
  exists (sorted_keys results).
  destruct (sorted_keys_spec results) as (Hsorted & Hperm & Hnodup).
  split; [reflexivity|]. split; [exact Hsorted|]. split; [exact Hnodup|]. split.
  - intros key. rewrite Hperm. split.
    + intros Hin. apply list_elem_of_In, in_map_iff in Hin as ([k v] & <- & Hkv).
      apply list_elem_of_In, elem_of_map_to_list in Hkv. simpl. eauto.
    + intros [v Hv]. apply list_elem_of_In, in_map_iff.
      exists (key, v). split; [reflexivity|].
      apply list_elem_of_In, elem_of_map_to_list. exact Hv.
  - rewrite (Permutation_length Hperm), length_map.
    apply length_map_to_list.
Qed.

End Report.

Section SaveModel.
Context {ModelArch : Type}.
Variable cosine_similarity : tensor float -> tensor float -> res (list float).
Variable compute_spearmanr : list float -> list float -> res float.
Variable compute_pearsonr : list float -> list float -> res float.
Variable str : float -> string.
Variable str_ModelArch : ModelArch -> string.
Variable str_EncoderType : EncoderType -> string.
Variable bool_EncoderType : EncoderType -> bool.
Variable json_dump : model_info -> string.
Variable model_save_pretrained : string -> res unit.
Variable tokenizer_save_pretrained : string -> res unit.
Variable makedirs : string -> res unit.

(** X18.  When model and tokenizer are saved without error, [save_model]
    writes the model information to the file [.json] of the directory;
    without results, or with an empty mapping, it writes nothing else, and
    given the results of an evaluation into the same directory it writes
    [eval_results.txt] again, exactly as [evaluate] wrote it. *)
Theorem save_model_rewrites_report (self : @BaseModel ModelArch)
    (eval_dataset : list eval_batch) (output_dir : string)
    (results : gmap string float) (written : list file_write) :
  let info :=
    FileWrite (Py.path_join output_dir ".json")
      (json_dump (model_info_dict str_ModelArch str_EncoderType bool_EncoderType self)) in
  let save :=
    save_model str str_ModelArch str_EncoderType bool_EncoderType json_dump
      model_save_pretrained tokenizer_save_pretrained makedirs self output_dir in
  Py.truthy (Some output_dir) = true ->
  evaluate cosine_similarity compute_spearmanr compute_pearsonr str
           self eval_dataset (Some output_dir) = Ok (results, written) ->
  makedirs output_dir = Ok tt ->
  model_save_pretrained output_dir = Ok tt ->
  tokenizer_save_pretrained output_dir = Ok tt ->
  save None = Ok [info]
  /\ save (Some ∅) = Ok [info]
  /\ save (Some results) = Ok (info :: written).
Proof.
  intros info save Hdir Hev Hmk Hm Ht. subst save. unfold save_model.
  destruct output_dir as [|c dir]; [discriminate|].
  rewrite Hmk, Hm, Ht. simpl bind.
  split; [reflexivity|]. split.
  - rewrite bool_decide_eq_true_2 by reflexivity. reflexivity.
  - destruct (evaluate_inv cosine_similarity compute_spearmanr compute_pearsonr str
                self _ _ _ _ Hev) as (preds & sp & pe & _ & _ & _ & -> & ->).
    rewrite bool_decide_eq_false_2; [reflexivity|].
    intros Hempty.
    assert (Hl : (<["eval_pearson" := pe]> (<["eval_spearman" := sp]> ∅)
                   : gmap string float) !! "eval_pearson" = Some pe)
      by apply lookup_insert_eq.
    rewrite Hempty, lookup_empty in Hl. discriminate.
Qed.

End SaveModel.

Lemma save_model_rewrites_report_witness :
  save_model example_str (fun _ : unit => "ModelArch.COSENT")
    (fun _ => "EncoderType.CLS") (fun _ => true) (fun _ => "{}")
    (fun _ => Ok tt) (fun _ => Ok tt) (fun _ => Ok tt)
    (example_model (Some CLS)) "out"
    (Some (<["eval_pearson" := Finite 4]> (<["eval_spearman" := Finite 4]> ∅)))
  = Ok [FileWrite "out/.json" "{}";
        FileWrite "out/eval_results.txt"
          (report example_str
             (<["eval_pearson" := Finite 4]> (<["eval_spearman" := Finite 4]> ∅)))].
Proof.
  destruct (save_model_rewrites_report example_cosine example_correlation
              example_correlation example_str (fun _ : unit => "ModelArch.COSENT")
              (fun _ => "EncoderType.CLS") (fun _ => true) (fun _ => "{}")
              (fun _ => Ok tt) (fun _ => Ok tt) (fun _ => Ok tt)
              (example_model (Some CLS)) [example_batch] "out"
              (<["eval_pearson" := Finite 4]> (<["eval_spearman" := Finite 4]> ∅))
              [FileWrite "out/eval_results.txt"
                 (report example_str
                    (<["eval_pearson" := Finite 4]> (<["eval_spearman" := Finite 4]> ∅)))])
    as (_ & _ & Hsave);
    [reflexivity|reflexivity|reflexivity|reflexivity|reflexivity|].
  exact Hsave.
Defined.

(** * Pooling and the order of additions *)

Module TorchInFacts.
Section Rank3.
Context {A : Type} (ar : arithmetic A) (d : list nat -> A) (n l c : nat).

Lemma sum_1_in :
  TorchIn.sum ar (Tensor [n; l; c] d) 1 =
  Ok (Tensor [n; c]
        (fun ix => reduce ar l (fun j => d (Torch.insert_at 1 j ix)))).
Proof. reflexivity. Qed.

Lemma pointwise_same_in f (a b : tensor A) :
  shape a = shape b ->
  TorchIn.pointwise f a b =
  Ok (Tensor (shape a) (fun ix => f (data a ix) (data b ix))).
Proof.
  intros Hs. unfold TorchIn.pointwise.
  rewrite bool_decide_eq_true_2 by exact Hs. reflexivity.
Qed.

Lemma avg_pool1d_full_in (t : tensor A) :
  shape t = [n; c; l] -> 0 < c -> 0 < l ->
  TorchIn.avg_pool1d ar t l =
  Ok (Tensor [n; c; 1]
        (fun ix => divide ar
                     (accumulate ar l (fun j => data t (<[2 := nth 2 ix 0 * l + j]> ix)))
                     (of_int ar (Z.of_nat l)))).
Proof.
  intros Hs Hc Hl. unfold TorchIn.avg_pool1d. rewrite Hs. simpl.
  destruct (Nat.ltb_spec 0 l); [|lia].
  destruct (Nat.ltb_spec 0 c); [|lia].
  rewrite Nat.leb_refl. simpl.
  rewrite Nat.sub_diag, Nat.Div0.div_0_l by lia. reflexivity.
Qed.

End Rank3.
End TorchInFacts.
Import TorchInFacts.

(** With exact arithmetic [pool_in] is [pool]. *)
Lemma pool_in_exact (encoder_type : option EncoderType) (out : model_output)
    (mask : tensor Z) :
  pool_in exact encoder_type (outputs_of out) mask = pool encoder_type out mask.
Proof. destruct encoder_type as [[]|]; reflexivity. Qed.

Lemma sum_ext_eq (n : nat) (f g : nat -> float) :
  (forall j, j < n -> f j = g j) -> Float.sum n f = Float.sum n g.
Proof.
  induction n as [|n IH]; intros Hfg; simpl; [reflexivity|].
  rewrite IH by (intros; apply Hfg; lia). rewrite (Hfg n) by lia. reflexivity.
Qed.

Lemma exact_same_order : same_order exact.
Proof.
  split.
  - intros [[a b]| | |]; try reflexivity.
    simpl. unfold Qmult. simpl. rewrite Z.mul_1_r, Pos.mul_1_r. reflexivity.
  - exact sum_ext_eq.
  - intros n Hn. simpl.
    assert (Hsum : Float.sum n (fun _ => Float.of_Z 1) = Float.of_nat n).
    { clear Hn. induction n as [|n IH]; [reflexivity|].
      simpl Float.sum. rewrite IH. unfold Float.of_nat, Float.of_Z. simpl.
      unfold Qplus, inject_Z. simpl. f_equal. f_equal. lia. }
    rewrite Hsum. apply clamp_count. exact Hn.
  - reflexivity.
Qed.

Section SameOrder.
Context {A : Type}.
Variable ar : arithmetic A.
Variable out : outputs A.
Variable mask : tensor Z.
Variables B L H : nat.


End SameOrder.



(** C10 (counterexample).  The second sentence has an all-zero attention
    mask and an infinite hidden state: pooling returns, and the first
    coordinate of its embedding is NaN, not zero. *)
Lemma pool_MEAN_zero_mask_infinite_state :
  (forall j, j < 2 -> data zero_mask [1; j] = 0%Z)
  /\ exists t,
       pool (Some MEAN) example_output_inf zero_mask = Ok (Some t)
       /\ data t [1; 0] = NaN
       /\ data t [1; 1] ≈ Float.zero
       /\ ~ (data t [1; 0] ≈ Float.zero).
Proof.
  split.
  - intros [|[|j]] Hj; [reflexivity|reflexivity|lia].
  - eexists. split; [reflexivity|].
    split; [vm_compute; reflexivity|]. split; [vm_compute; reflexivity|].
    vm_compute. auto.
Qed.

(** The stable argsort keeps sentences of equal length in input order. *)
Example argsort_stable_ties :
  argsort_stable [-3; -2; -2; -5; -2]%Z = [3; 0; 1; 2; 4].
Proof. vm_compute. reflexivity. Qed.
